(** * SATOSA: the idpy-oidcop frontend and the test helpers

    A shallow embedding of [src/satosa/frontends/idpy_oidcop.py] and of the
    [FileGenerator] singleton of [tests/util.py].

    Python values are an inductive type, dictionaries are insertion-ordered
    association lists (the order of [items()] is observable in the source),
    the client database [cdb] is a finite map, and the methods of
    [OidcOpUtils] live in a state-and-exception monad over the process-wide
    endpoint context and the storage. Calls into oidcop, oidcmsg and the
    rest of satosa are oracles collected in an environment record. Logging
    ([logger], [_log_request]) has no effect on that state and is left
    out. *)

From Stdlib Require Import ZArith String Ascii List Bool.
From stdpp Require Import base option list gmap strings pretty.

Open Scope string_scope.
Set Warnings "-register-all".

(** ** Python values *)

Inductive MsgClass :=
  | AuthorizationRequest
  | AccessTokenRequest
  | AuthorizationErrorResponse
  | ResponseMessage
  | OtherMessage (name : string).

(** Plain data, oidcmsg messages (dict-like objects tagged with their class)
    and the satosa response objects the frontend builds and tests with
    [isinstance]. *)
Inductive PyVal :=
  | PNone
  | PBool (b : bool)
  | PInt (z : Z)
  | PStr (s : string)
  | PList (l : list PyVal)
  | PDict (items : list (string * PyVal))
  | PMessage (cls : MsgClass) (items : list (string * PyVal))
  | PJsonResponse (message : PyVal) (status : option string)
  | PResponse (message : PyVal)
  | PSeeOther (url : PyVal)
  | PInternalData (fields : list (string * PyVal)).

Definition is_empty {A} (l : list A) : bool :=
  match l with
  | [] => true
  | _ :: _ => false
  end.

(** Truth value testing ([if v], [a or b]): [None], [False], zero and empty
    containers are false, every other object is true. *)
Definition truthy (v : PyVal) : bool :=
  match v with
  | PNone => false
  | PBool b => b
  | PInt z => negb (z =? 0)%Z
  | PStr s => negb (String.eqb s "")
  | PList l => negb (is_empty l)
  | PDict items => negb (is_empty items)
  | PMessage _ items => negb (is_empty items)
  | _ => true
  end.

(** ** Dictionaries *)

Section Dicts.
Context {V : Type}.

Fixpoint dict_get (k : string) (d : list (string * V)) : option V :=
  match d with
  | [] => None
  | (k', v) :: r => if String.eqb k k' then Some v else dict_get k r
  end.

(** [d[k] = v]: an existing key keeps its position. *)
Fixpoint dict_set (k : string) (v : V) (d : list (string * V))
  : list (string * V) :=
  match d with
  | [] => [(k, v)]
  | (k', v') :: r =>
      if String.eqb k k' then (k, v) :: r else (k', v') :: dict_set k v r
  end.

(** [dict(items)] and dict comprehensions: later items overwrite. *)
Definition dict_of_items (items : list (string * V)) : list (string * V) :=
  fold_left (fun d kv => dict_set kv.1 kv.2 d) items [].
End Dicts.

(** [str.lower] on ASCII strings (a string is the list of its bytes): the
    letters A to Z are mapped, every other byte is kept. Statements about
    lower-cased names are made for ASCII names, see [is_ascii]. *)
Definition lower_ascii (c : ascii) : ascii :=
  let n := nat_of_ascii c in
  if (65 <=? n)%nat && (n <=? 90)%nat then ascii_of_nat (n + 32) else c.

Fixpoint lower (s : string) : string :=
  match s with
  | EmptyString => EmptyString
  | String c r => String (lower_ascii c) (lower r)
  end.

(** ** The request context *)

Definition IGNORED_HEADERS : list string := ["cookie"; "user-agent"].

(** [ExtendedContext]. [http_headers] and [request_authorization] are read
    with [getattr(context, name, None)], so [None] stands for a missing (or
    [None]) attribute. [state] maps a frontend name to the dict the frontend
    keeps there. *)
Record ExtendedContext := {
  request : list (string * string);
  http_headers : option (list (string * string));
  request_method : string;
  request_uri : string;
  request_authorization : option string;
  state : gmap string (list (string * list (string * string)));
  target_backend : PyVal;
  internal_data : PyVal
}.

Definition str_dict (d : list (string * string)) : list (string * PyVal) :=
  map (fun kv => (kv.1, PStr kv.2)) d.

Definition opt_truthy {A} (empty : A -> bool) (o : option A) : bool :=
  match o with
  | Some a => negb (empty a)
  | None => false
  end.

Definition headers_comprehension (h : list (string * string))
  : list (string * PyVal) :=
  dict_of_items
    (map (fun kv => (lower kv.1, PStr kv.2))
       (filter (fun kv => negb (existsb (String.eqb kv.1) IGNORED_HEADERS)) h)).

(** [OidcOpUtils._get_http_headers]; the local dict [http_headers] of the
    source is [info] here. *)
Definition _get_http_headers (context : ExtendedContext)
  : list (string * PyVal) :=
  let info := [] in
  let info :=
    if opt_truthy is_empty (http_headers context)
    then [("headers", PDict (headers_comprehension
                               (default [] (http_headers context))));
          ("method", PStr (request_method context));
          ("url", PStr (request_uri context))]
    else info in
  if opt_truthy (fun s => String.eqb s "") (request_authorization context)
  then dict_set "headers"
         (PDict [("authorization",
                  PStr (default "" (request_authorization context)))])
         info
  else info.

(** ** Exceptions and the state-and-exception monad *)

(** A class stands for itself and its subclasses. [NonException] covers
    [BaseException] subclasses outside [Exception] ([KeyboardInterrupt],
    [SystemExit]), which [except Exception] lets through. *)
Inductive ExnClass :=
  | InvalidClient
  | UnknownClient
  | UnAuthorizedClient
  | NameError
  | KeyError
  | TypeError
  | AttributeError
  | ValueError
  | NotImplementedError
  | OtherException (name : string)
  | NonException (name : string).

Record Exn := mkExn { exn_class : ExnClass; exn_str : string }.

(** [except (InvalidClient, UnknownClient, UnAuthorizedClient)] *)
Definition is_client_error (e : Exn) : bool :=
  match exn_class e with
  | InvalidClient | UnknownClient | UnAuthorizedClient => true
  | _ => false
  end.

(** [except Exception] *)
Definition is_Exception (e : Exn) : bool :=
  match exn_class e with
  | NonException _ => false
  | _ => true
  end.

Inductive Outcome (A : Type) :=
  | Ret (a : A)
  | Raise (e : Exn).
Arguments Ret {A} a.
Arguments Raise {A} e.

(** ** Process-wide state *)

(** The in-memory database of the oidcop session manager, as [dump()["db"]]
    shows it: key, then the pair of the entry's class name and its data. *)
Record SMan := { db : list (string * (string * PyVal)) }.

(** The oidcop endpoint context: one object per process, shared by every
    request. *)
Record EndpointContext := {
  cdb : gmap string PyVal;
  session_manager : SMan;
  userinfo : PyVal
}.

(** An oidcop endpoint object, as far as the frontend looks at it: whether
    it is an instance of [oidcop.oidc.token.Token], and its default
    [response_placement]. *)
Record Endpoint := {
  endpoint_name : string;
  isinstance_Token : bool;
  response_placement : PyVal
}.

(** Calls into oidcop and satosa that run against the endpoint context.
    [create_authn_event] stands for the call with a salt drawn from
    [os.urandom]. *)
Inductive ExtCall :=
  | parse_request (endpoint : Endpoint) (req : PyVal) (http_info : PyVal)
  | process_request (endpoint : Endpoint) (req : PyVal) (http_info : PyVal)
  | do_response (endpoint : Endpoint) (req : PyVal) (proc_req : PyVal)
  | authz_part2 (endpoint : Endpoint) (user session_id req authn_event : PyVal)
  | create_authn_event (uid : PyVal)
  | get_method_by_id (id : string)
  | create_session (authn_event auth_req user_id client_id rules : PyVal)
  | to_internal_filter (profile : string) (claims_supported : PyVal)
  | from_internal (profile : string) (attributes : PyVal)
  | auth_req_callback_func (context : ExtendedContext) (internal_req : PyVal).

(** Calls that only build a value. *)
Inductive PureCall :=
  | AccessTokenRequest_kwargs (parse_req : PyVal)
  | from_urlencoded (cls : MsgClass) (params : list (string * string))
  | to_json (msg : PyVal)
  | urlencode_to_dict (msg : PyVal).

Section Frontend.
(** The durable store behind [self.app.storage]. *)
Context {Storage : Type}.

Record World := {
  ec : EndpointContext;
  storage : Storage
}.

(** What the frontend is configured with and calls out to. The storage
    methods are typed by what the source hands them: a client lookup reads
    the storage, storing a session reads the session manager and writes the
    storage, loading one fills the session manager. *)
Record Env := {
  frontend_name : string;
  endpoint_authorization : Endpoint;
  endpoint_token : Endpoint;
  endpoint_userinfo : Endpoint;
  claims_supported : PyVal;
  default_target_backend : PyVal;
  extern : ExtCall -> World -> Outcome PyVal * World;
  pure : PureCall -> Outcome PyVal;
  combine_claim_values : list (string * PyVal) -> list (string * PyVal);
  storage_get_client_by_id : string -> Storage -> Outcome PyVal;
  storage_get_claims_from_sid : string -> Storage -> Outcome PyVal;
  storage_store_session_to_db :
    SMan -> PyVal -> Storage -> Outcome unit * Storage;
  storage_load_session_from_db :
    PyVal -> PyVal -> SMan -> Storage ->
    Outcome (list (string * PyVal)) * (SMan * Storage)
}.

Definition M (A : Type) : Type := World -> Outcome A * World.

Definition ret {A} (a : A) : M A := fun w => (Ret a, w).
Definition raise {A} (e : Exn) : M A := fun w => (Raise e, w).
Definition bind {A B} (m : M A) (k : A -> M B) : M B :=
  fun w =>
    match m w with
    | (Ret a, w') => k a w'
    | (Raise e, w') => (Raise e, w')
    end.
(** [try: m except ... as e: h e] *)
Definition try_except {A} (m : M A) (h : Exn -> M A) : M A :=
  fun w =>
    match m w with
    | (Ret a, w') => (Ret a, w')
    | (Raise e, w') => h e w'
    end.
(** [try: a = m except ... as e: return h e], then [k a] *)
Definition try_else {A B} (m : M A) (h : Exn -> M B) (k : A -> M B) : M B :=
  fun w =>
    match m w with
    | (Ret a, w') => k a w'
    | (Raise e, w') => h e w'
    end.
Definition lift {A} (o : Outcome A) : M A := fun w => (o, w).
Definition get_ec : M EndpointContext := fun w => (Ret (ec w), w).
Definition set_ec (f : EndpointContext -> EndpointContext) : M unit :=
  fun w => (Ret tt, {| ec := f (ec w); storage := storage w |}).
End Frontend.
Arguments World : clear implicits.
Arguments Env : clear implicits.
Arguments M : clear implicits.

Declare Scope py_scope.
Notation "x <- m ;; k" := (bind m (fun x => k))
  (at level 100, m at next level, right associativity) : py_scope.
Notation "m ;; k" := (bind m (fun _ => k))
  (at level 100, right associativity) : py_scope.

(** ** Operations on Python values *)

Definition py_items (v : PyVal) : option (list (string * PyVal)) :=
  match v with
  | PDict d | PMessage _ d => Some d
  | _ => None
  end.

(** [v.get(k, dflt)] *)
Definition py_get (v : PyVal) (k : string) (dflt : PyVal) : Outcome PyVal :=
  match py_items v with
  | Some d => Ret (default dflt (dict_get k d))
  | None => Raise (mkExn AttributeError "object has no attribute 'get'")
  end.

(** [v[k]] *)
Definition py_getitem (v : PyVal) (k : string) : Outcome PyVal :=
  match py_items v with
  | Some d =>
      match dict_get k d with
      | Some x => Ret x
      | None => Raise (mkExn KeyError ("'" ++ k ++ "'"))
      end
  | None => Raise (mkExn TypeError "object is not subscriptable")
  end.

(** [a + b] on strings *)
Definition py_add (a b : PyVal) : Outcome PyVal :=
  match a, b with
  | PStr x, PStr y => Ret (PStr (x ++ y))
  | _, _ => Raise (mkExn TypeError "unsupported operand type(s) for +")
  end.

Definition py_eq_str (v : PyVal) (s : string) : bool :=
  match v with
  | PStr x => String.eqb x s
  | _ => false
  end.

Definition isinstance_JsonResponse (v : PyVal) : bool :=
  match v with
  | PJsonResponse _ _ => true
  | _ => false
  end.

Definition isinstance_InternalData (v : PyVal) : bool :=
  match v with
  | PInternalData _ => true
  | _ => false
  end.

Definition isinstance_AuthorizationErrorResponse (v : PyVal) : bool :=
  match v with
  | PMessage AuthorizationErrorResponse _ => true
  | _ => false
  end.

(** [AuthorizationErrorResponse] derives from [ResponseMessage]. *)
Definition isinstance_ResponseMessage (v : PyVal) : bool :=
  match v with
  | PMessage (ResponseMessage | AuthorizationErrorResponse) _ => true
  | _ => false
  end.

(** [k in v] *)
Definition py_contains (k : string) (v : PyVal) : bool :=
  match py_items v with
  | Some d => bool_decide (is_Some (dict_get k d))
  | None => false
  end.

Definition str_empty (s : string) : bool := String.eqb s "".

(** [a or b] on optional strings *)
Definition str_or (a b : option string) : option string :=
  if opt_truthy str_empty a then a else b.

(** [f"{x}"] for an optional string *)
Definition fmt (o : option string) : string := default "None" o.

(** ** OidcOpUtils *)

Section OidcOp.
Context {Storage : Type} (E : Env Storage).
Local Open Scope py_scope.

Abbreviation M := (M Storage).

Definition set_cdb (c : gmap string PyVal) : M unit :=
  set_ec (fun x => {| cdb := c; session_manager := session_manager x;
                      userinfo := userinfo x |}).
Definition set_session_manager (s : SMan) : M unit :=
  set_ec (fun x => {| cdb := cdb x; session_manager := s;
                      userinfo := userinfo x |}).
(** [ec.userinfo.load(claims)]; [ec.userinfo.flush()] is the load of the
    empty dict. *)
Definition set_userinfo (u : PyVal) : M unit :=
  set_ec (fun x => {| cdb := cdb x; session_manager := session_manager x;
                      userinfo := u |}).

Definition call (c : ExtCall) : M PyVal := extern E c.
Definition call_pure (c : PureCall) : M PyVal := lift (pure E c).
Definition read_storage {A} (f : Storage -> Outcome A) : M A :=
  fun w => (f (storage w), w).

(** [OidcOpUtils._load_cdb] *)
Definition _load_cdb (context : ExtendedContext) (client_id : option string)
  : M PyVal :=
  let client_id := str_or client_id (dict_get "client_id" (request context)) in
  let _msg := "Client " ++ fmt client_id ++ " not found!" in
  match client_id with
  | Some cid =>
      if negb (str_empty cid) then
        client <- read_storage (storage_get_client_by_id E cid) ;;
        set_cdb {[ cid := client ]} ;;
        ret client
      else
        set_cdb ∅ ;; raise (mkExn InvalidClient _msg)
  | None => set_cdb ∅ ;; raise (mkExn InvalidClient _msg)
  end.

(** [OidcOpUtils.store_session_to_db] *)
Definition store_session_to_db (claims : PyVal) : M unit :=
  fun w =>
    let sman := session_manager (ec w) in
    let '(o, s) := storage_store_session_to_db E sman claims (storage w) in
    (o, {| ec := ec w; storage := s |}).

(** [OidcOpUtils.load_session_from_db] *)
Definition load_session_from_db (parse_req http_headers : PyVal)
  : M (list (string * PyVal)) :=
  fun w =>
    let sman := session_manager (ec w) in
    let '(o, (sman', s)) :=
      storage_load_session_from_db E parse_req http_headers sman (storage w) in
    (o, {| ec := {| cdb := cdb (ec w); session_manager := sman';
                    userinfo := userinfo (ec w) |};
           storage := s |}).

(** [sman.flush()]: frees the memory from any loaded session. *)
Definition flush (sman : SMan) : SMan := {| db := [] |}.

(** [OidcOpUtils._flush_endpoint_context_memory] *)
Definition _flush_endpoint_context_memory : M unit :=
  _ec <- get_ec ;;
  let sman := session_manager _ec in
  set_session_manager (flush sman).

(** [OidcOpUtils._load_session]. The name [sdata] is bound nowhere in the
    module, so evaluating the argument of the call raises before
    [_load_cdb] is entered. *)
Definition _load_session (parse_req : PyVal) (endpoint : Endpoint)
    (http_headers : PyVal) : M unit :=
  _flush_endpoint_context_memory ;;
  data <- load_session_from_db parse_req http_headers ;;
  if truthy (default PNone (dict_get "client_id" data)) then
    raise (mkExn NameError "name 'sdata' is not defined")
  else ret tt.

(** [OidcOpUtils._parse_request] *)
Definition _parse_request (endpoint : Endpoint) (context : ExtendedContext)
    (http_headers : list (string * PyVal)) : M PyVal :=
  let http_headers :=
    if negb (is_empty http_headers) then http_headers
    else _get_http_headers context in
  call (parse_request endpoint (PDict (str_dict (request context)))
          (PDict http_headers)).

(** [OidcOpUtils.send_response] *)
Definition send_response (response : PyVal) : M PyVal :=
  _flush_endpoint_context_memory ;;
  ret response.

(** The two-field error body and the response [_process_request] wraps it
    in. *)
Definition error_body (error : string) (err : Exn) : PyVal :=
  PDict [("error", PStr error); ("error_description", PStr (exn_str err))].

Definition error_response (error : string) (err : Exn) : PyVal :=
  PJsonResponse (error_body error err) (Some "400").

(** The request handed to [endpoint.process_request]: an
    [AccessTokenRequest] built from the parsed request at a token endpoint,
    the parsed request itself elsewhere. *)
Definition request_for (endpoint : Endpoint) (parse_req : PyVal)
  : Outcome PyVal :=
  if isinstance_Token endpoint
  then pure E (AccessTokenRequest_kwargs parse_req)
  else Ret parse_req.

(** [OidcOpUtils._process_request] *)
Definition _process_request (endpoint : Endpoint) (context : ExtendedContext)
    (parse_req http_headers : PyVal) : M PyVal :=
  match request_for endpoint parse_req with
  | Raise err =>
      if is_Exception err then
        let response := error_response "invalid_request" err in
        send_response response
      else raise err
  | Ret _req =>
      try_except
        (call (process_request endpoint _req http_headers))
        (fun err =>
           if is_client_error err then
             let response := error_response "unauthorized_client" err in
             send_response response
           else if is_Exception err then
             let response := error_response "invalid_request" err in
             send_response response
           else raise err)
  end.

(** [OidcOpUtils.handle_error] *)
Definition handle_error (msg : option string) (excp : option Exn)
    (status : string) : M PyVal :=
  let _msg := "Something went wrong ... " ++ from_option exn_str "" excp in
  let msg := default _msg (str_or msg None) in
  send_response (PJsonResponse (PStr msg) (Some status)).
End OidcOp.

(** ** OidcOpEndpoints and OidcOpFrontend *)

Section Endpoints.
Context {Storage : Type} (E : Env Storage).
Local Open Scope py_scope.

Abbreviation M := (M Storage).

(** [OidcOpEndpoints.token_endpoint] *)
Definition token_endpoint (context : ExtendedContext) : M PyVal :=
  let endpoint := endpoint_token E in
  let http_headers := _get_http_headers context in
  raw_request <-
    call_pure E (from_urlencoded AccessTokenRequest (request context)) ;;
  _load_cdb E context None ;;
  _load_session E raw_request endpoint (PDict http_headers) ;;
  parse_req <- _parse_request E endpoint context http_headers ;;
  proc_req <-
    _process_request E endpoint context parse_req (PDict http_headers) ;;
  if isinstance_JsonResponse proc_req then send_response proc_req
  else
    store_session_to_db E PNone ;;
    args <- lift (py_getitem proc_req "response_args") ;;
    let response := PJsonResponse args None in
    send_response response.

(** The [for ... else] loop of [userinfo_endpoint]: the claims of the first
    grant entry of the session manager, [{}] when there is none. *)
Definition load_claims : M PyVal :=
  _ec <- get_ec ;;
  match find (fun kv => String.eqb (kv.2.1) "oidcop.session.grant.Grant")
             (db (session_manager _ec)) with
  | Some (sid, _) => read_storage (storage_get_claims_from_sid E sid)
  | None => ret (PDict [])
  end.

(** [OidcOpEndpoints.userinfo_endpoint] *)
Definition userinfo_endpoint (context : ExtendedContext) : M PyVal :=
  let endpoint := endpoint_userinfo E in
  let http_headers := _get_http_headers context in
  _load_session E (PDict []) endpoint (PDict http_headers) ;;
  parse_req <- _parse_request E endpoint context http_headers ;;
  claims <- load_claims ;;
  set_userinfo claims ;;
  proc_req <-
    _process_request E endpoint context parse_req (PDict http_headers) ;;
  set_userinfo (PDict []) ;;
  if isinstance_JsonResponse proc_req then send_response proc_req
  else
    args <- lift (py_getitem proc_req "response_args") ;;
    let response := PJsonResponse args None in
    store_session_to_db E PNone ;;
    send_response response.

(** [context.state[self.name] = {"oidc_request": context.request}] *)
Definition remember_request (context : ExtendedContext) : ExtendedContext :=
  {| request := request context;
     http_headers := http_headers context;
     request_method := request_method context;
     request_uri := request_uri context;
     request_authorization := request_authorization context;
     state := <[ frontend_name E := [("oidc_request", request context)] ]>
                (state context);
     target_backend := target_backend context;
     internal_data := internal_data context |}.

(** [del context.state[self.name]] *)
Definition forget_request (context : ExtendedContext) : ExtendedContext :=
  {| request := request context;
     http_headers := http_headers context;
     request_method := request_method context;
     request_uri := request_uri context;
     request_authorization := request_authorization context;
     state := delete (frontend_name E) (state context);
     target_backend := target_backend context;
     internal_data := internal_data context |}.

Definition set_target (context : ExtendedContext) (backend internal : PyVal)
  : ExtendedContext :=
  {| request := request context;
     http_headers := http_headers context;
     request_method := request_method context;
     request_uri := request_uri context;
     request_authorization := request_authorization context;
     state := state context;
     target_backend := backend;
     internal_data := internal |}.

(** [cdb[client_id]] for a key taken from a parsed request; the text of a
    [KeyError] is the [repr] of the key. *)
Definition cdb_getitem (key : PyVal) : M PyVal :=
  _ec <- get_ec ;;
  match key with
  | PStr k =>
      match cdb _ec !! k with
      | Some c => ret c
      | None => raise (mkExn KeyError ("'" ++ k ++ "'"))
      end
  | PList _ | PDict _ => raise (mkExn TypeError "unhashable type")
  | PNone => raise (mkExn KeyError "None")
  | PBool b => raise (mkExn KeyError (if b then "True" else "False"))
  | PInt z => raise (mkExn KeyError (pretty z))
  | _ => raise (mkExn KeyError "key")
  end.

(** [OidcOpFrontend._handle_authn_request]. The context is returned next to
    the result, with the updates the method made to it. *)
Definition _handle_authn_request (context : ExtendedContext)
    (endpoint : Endpoint) : M (PyVal * ExtendedContext) :=
  let http_headers := _get_http_headers context in
  _load_cdb E context None ;;
  parse_req <- _parse_request E endpoint context http_headers ;;
  if isinstance_AuthorizationErrorResponse parse_req then
    r <- send_response (PDict (default [] (py_items parse_req))) ;;
    ret (r, context)
  else
    _load_session E parse_req endpoint (PDict http_headers) ;;
    proc_req <-
      _process_request E endpoint context parse_req (PDict http_headers) ;;
    if isinstance_JsonResponse proc_req then ret (proc_req, context)
    else
      try_except
        (call E (do_response endpoint (PDict (str_dict (request context)))
                   proc_req) ;;
         ret tt)
        (fun excp =>
           if is_Exception excp then
             handle_error None (Some excp) "403" ;; ret tt
           else raise excp) ;;
      let context := remember_request context in
      client_id <- lift (py_get parse_req "client_id" PNone) ;;
      _client_conf <- cdb_getitem client_id ;;
      client_name <- lift (py_get _client_conf "client_name" PNone) ;;
      subject_type <-
        lift (py_get _client_conf "subject_type" (PStr "pairwise")) ;;
      let requester_name :=
        if truthy client_name
        then PList [PDict [("lang", PStr "en"); ("text", client_name)]]
        else PNone in
      let _claims_supported := claims_supported E in
      attributes <- call E (to_internal_filter "openid" _claims_supported) ;;
      let internal_req :=
        PInternalData [("subject_type", subject_type);
                       ("requester", client_id);
                       ("requester_name", requester_name);
                       ("attributes", attributes)] in
      let context :=
        set_target context (default_target_backend E) internal_req in
      ret (internal_req, context).

(** [OidcOpEndpoints.authorization_endpoint] *)
Definition authorization_endpoint (context : ExtendedContext) : M PyVal :=
  _load_cdb E context None ;;
  let endpoint := endpoint_authorization E in
  r <- _handle_authn_request context endpoint ;;
  let '(internal_req, context) := r in
  if negb (isinstance_InternalData internal_req)
  then send_response internal_req
  else call E (auth_req_callback_func context internal_req).

(** [OidcOpFrontend.handle_authn_request] *)
Definition handle_authn_request (context : ExtendedContext) : M PyVal :=
  let endpoint := endpoint_authorization E in
  r <- _handle_authn_request context endpoint ;;
  let '(internal_req, context) := r in
  if negb (isinstance_InternalData internal_req)
  then send_response internal_req
  else call E (auth_req_callback_func context internal_req).
(** [OidcOpFrontend._handle_backend_response] *)
Definition _handle_backend_response (context : ExtendedContext)
    (internal_resp : list (string * PyVal)) : M PyVal :=
  let http_headers := _get_http_headers context in
  match state context !! frontend_name E with
  | None => raise (mkExn KeyError ("'" ++ frontend_name E ++ "'"))
  | Some st =>
  match dict_get "oidc_request" st with
  | None => raise (mkExn KeyError "'oidc_request'")
  | Some oidc_req =>
  let endpoint := endpoint_authorization E in
  match dict_get "client_id" oidc_req with
  | None => raise (mkExn KeyError "'client_id'")
  | Some cid =>
  _load_cdb E context (Some cid) ;;
  parse_req <- call_pure E (from_urlencoded AuthorizationRequest oidc_req) ;;
  _load_session E parse_req endpoint (PDict http_headers) ;;
  proc_req <-
    _process_request E endpoint context parse_req (PDict http_headers) ;;
  if isinstance_JsonResponse proc_req then send_response proc_req
  else
    client_id <- lift (py_getitem parse_req "client_id") ;;
    let sub := default PNone (dict_get "subject_id" internal_resp) in
    authn_event <- call E (create_authn_event sub) ;;
    _token_usage_rules <- call E (get_method_by_id "user") ;;
    _session_id <-
      call E (create_session authn_event parse_req sub client_id
                _token_usage_rules) ;;
    try_else
      (call E (authz_part2 endpoint sub _session_id parse_req authn_event))
      (fun excp =>
         if is_Exception excp then handle_error None (Some excp) "403"
         else raise excp)
      (fun _args =>
         if isinstance_ResponseMessage _args && py_contains "error" _args
         then send_response (PJsonResponse _args (Some "400"))
         else
           rargs <- lift (py_get _args "response_args" PNone) ;;
           if isinstance_AuthorizationErrorResponse rargs then
             body <- call_pure E (to_json rargs) ;;
             let response := PJsonResponse body (Some "400") in
             send_response response
           else
             info <- call E (do_response endpoint parse_req proc_req) ;;
             info_response <- lift (py_getitem info "response") ;;
             _response_placement <-
               lift (py_get info "response_placement"
                       (response_placement endpoint)) ;;
             if py_eq_str _response_placement "body" then
               ret (PResponse info_response)
             else if py_eq_str _response_placement "url" then
               response_args <- lift (py_getitem _args "response_args") ;;
               query <- call_pure E (urlencode_to_dict response_args) ;;
               redirect_url <- lift (py_add info_response query) ;;
               ret (PSeeOther redirect_url)
             else
               _flush_endpoint_context_memory ;;
               raise (mkExn NotImplementedError ""))
  end end end.

(** The dict comprehension of [handle_authn_response]: [_claims] without the
    items whose value is false. *)
Definition filter_unset_claims (_claims : list (string * PyVal))
  : list (string * PyVal) :=
  dict_of_items (filter (fun kv => truthy kv.2) _claims).

(** [dict([i for i in combine_claim_values(claims.items())])] *)
Definition combined_claims (_claims : list (string * PyVal))
  : list (string * PyVal) :=
  dict_of_items (combine_claim_values E (filter_unset_claims _claims)).

(** [OidcOpFrontend.handle_authn_response] *)
Definition handle_authn_response (context : ExtendedContext)
    (internal_resp : list (string * PyVal)) : M (PyVal * ExtendedContext) :=
  let attributes := default PNone (dict_get "attributes" internal_resp) in
  _claims <- call E (from_internal "openid" attributes) ;;
  match py_items _claims with
  | None => raise (mkExn AttributeError "object has no attribute 'items'")
  | Some items =>
      let combined := combined_claims items in
      response <- _handle_backend_response context internal_resp ;;
      match state context !! frontend_name E with
      | None => raise (mkExn KeyError ("'" ++ frontend_name E ++ "'"))
      | Some _ =>
          let context := forget_request context in
          store_session_to_db E (PDict combined) ;;
          r <- send_response response ;;
          ret (r, context)
      end
  end.
End Endpoints.

(** ** tests/util.py: the FileGenerator singleton *)

Module FileGenerator.

(** An instance: its two dict attributes, [None] until [__init__] has
    assigned them. *)
Record Object := {
  generate_certs : option (list (string * PyVal));
  metadata : option (list (string * PyVal))
}.

(** The class attribute [_instance] and the objects allocated so far, by
    address. *)
Record ClassState := {
  _instance : option nat;
  heap : gmap nat Object
}.

Definition initial : ClassState := {| _instance := None; heap := ∅ |}.

(** [object.__new__(FileGenerator)] *)
Definition alloc (s : ClassState) : nat * ClassState :=
  let a := fresh (dom (heap s)) in
  (a, {| _instance := _instance s;
         heap := <[ a := {| generate_certs := None; metadata := None |} ]>
                   (heap s) |}).

(** [FileGenerator.__init__]; an instance has no [__bool__] or [__len__],
    so [if FileGenerator._instance] tests for an instance being there. *)
Definition __init__ (self : nat) (s : ClassState) : Outcome unit * ClassState :=
  match _instance s with
  | Some _ =>
      (Raise (mkExn TypeError
                "Singletons must be accessed through `get_instance()`."), s)
  | None =>
      (Ret tt,
       {| _instance := Some self;
          heap := <[ self := {| generate_certs := Some [];
                                metadata := Some [] |} ]> (heap s) |})
  end.

(** The call [FileGenerator()] *)
Definition construct (s : ClassState) : Outcome nat * ClassState :=
  let '(a, s1) := alloc s in
  match __init__ a s1 with
  | (Ret _, s2) => (Ret a, s2)
  | (Raise e, s2) => (Raise e, s2)
  end.

(** [FileGenerator.get_instance] *)
Definition get_instance (s : ClassState) : Outcome (option nat) * ClassState :=
  match _instance s with
  | None =>
      match construct s with
      | (Ret a, s') =>
          let s'' := {| _instance := Some a; heap := heap s' |} in
          (Ret (_instance s''), s'')
      | (Raise e, s') => (Raise e, s')
      end
  | Some _ => (Ret (_instance s), s)
  end.

Inductive Call := Construct | GetInstance.

Definition step (c : Call) (s : ClassState)
  : Outcome (option nat) * ClassState :=
  match c with
  | Construct =>
      match construct s with
      | (Ret a, s') => (Ret (Some a), s')
      | (Raise e, s') => (Raise e, s')
      end
  | GetInstance => get_instance s
  end.

(** A process: any sequence of constructor and [get_instance] calls. *)
Fixpoint run (calls : list Call) (s : ClassState)
  : list (Outcome (option nat)) * ClassState :=
  match calls with
  | [] => ([], s)
  | c :: rest =>
      let '(o, s') := step c s in
      let '(os, s'') := run rest s' in
      (o :: os, s'')
  end.

(** An object whose [__init__] ran to its end. *)
Definition initialised (o : Object) : Prop :=
  is_Some (generate_certs o) ∧ is_Some (metadata o).

(** What holds of the class between calls: objects that are not the
    registered instance were never initialised, and the registered instance
    is one. *)
Definition singleton_inv (s : ClassState) : Prop :=
  (∀ a o, heap s !! a = Some o → initialised o → _instance s = Some a) ∧
  (∀ i, _instance s = Some i → ∃ o, heap s !! i = Some o ∧ initialised o).

End FileGenerator.

(** ** The session manager of the specification *)

Module SessionSpec.

Inductive SessionState := active | expired | revoked.

Inductive SessionError := CapacityError | SessionNotFound | SessionExpired.

Record AuthnEvent := {
  authn_time : nat;
  authn_method : string;
  salt : string
}.

Record Client := {
  client_ident : string;
  redirect_uris : list string
}.

Record Session := {
  session_id : nat;
  subject_id : string;
  client_id : string;
  authn_event : AuthnEvent;
  granted_scopes : list string;
  tokens : list nat;
  session_state : SessionState
}.

(** Modelled from the spec: the durable session store behind the Session
    Manager (section 4.2). The code that creates and reloads sessions
    (oidcop's [create_session] and the frontend's storage module) is not in
    the source tree; the frontend only calls it. [capacity] bounds the
    backing store. *)
Record Store := {
  sessions : gmap nat Session;
  capacity : nat
}.

(** Modelled from the spec: [create(subject, client, authn_event, scopes)]
    generates a fresh unique id and fails with [CapacityError] only if the
    backing store is exhausted (the session manager's code is not in the
    source tree). *)
Definition create (subject : string) (client : Client) (ev : AuthnEvent)
    (scopes : list string) (st : Store) : SessionError + (Session * Store) :=
  if decide (capacity st ≤ size (sessions st))%nat then inl CapacityError
  else
    let sid := fresh (dom (sessions st)) in
    let s := {| session_id := sid; subject_id := subject;
                client_id := client_ident client; authn_event := ev;
                granted_scopes := scopes; tokens := [];
                session_state := active |} in
    inr (s, {| sessions := <[ sid := s ]> (sessions st);
               capacity := capacity st |}).

(** Modelled from the spec: [load(session_id)] fails with [SessionNotFound]
    or [SessionExpired] (the storage module's code is not in the source
    tree). *)
Definition load (sid : nat) (st : Store) : SessionError + Session :=
  match sessions st !! sid with
  | None => inl SessionNotFound
  | Some s =>
      match session_state s with
      | expired => inl SessionExpired
      | _ => inr s
      end
  end.

End SessionSpec.

(** ** A scripted environment

    A small stand-in for oidcop and the storage, used to run the frontend on
    concrete requests. The storage is the persisted session database; what
    the library calls answer is fixed by a script. *)

Record Script := {
  script_client : Outcome PyVal;
  script_data : list (string * PyVal);
  script_token_request : Outcome PyVal;
  script_parse : Outcome PyVal;
  script_process : Outcome PyVal;
  script_authz_part2 : Outcome PyVal;
  script_do_response : Outcome PyVal
}.

Definition ToyStorage : Type := list (string * (string * PyVal)).

Definition toy_add_grant (w : World ToyStorage) : World ToyStorage :=
  {| ec := {| cdb := cdb (ec w);
              session_manager :=
                {| db := db (session_manager (ec w)) ++
                         [("sid1", ("oidcop.session.grant.Grant", PDict []))] |};
              userinfo := userinfo (ec w) |};
     storage := storage w |}.

Definition toy_extern (sc : Script) (c : ExtCall) (w : World ToyStorage)
  : Outcome PyVal * World ToyStorage :=
  match c with
  | parse_request _ _ _ => (script_parse sc, w)
  | process_request _ _ _ => (script_process sc, toy_add_grant w)
  | do_response _ _ _ => (script_do_response sc, w)
  | authz_part2 _ _ _ _ _ => (script_authz_part2 sc, w)
  | create_authn_event uid => (Ret (PDict [("uid", uid)]), w)
  | get_method_by_id _ => (Ret PNone, w)
  | create_session _ _ _ _ _ => (Ret (PStr "sid1"), toy_add_grant w)
  | to_internal_filter _ _ => (Ret (PList []), w)
  | from_internal _ attributes => (Ret attributes, w)
  | auth_req_callback_func _ _ => (Ret (PSeeOther (PStr "https://idp/sso")), w)
  end.

Definition toy_pure (sc : Script) (c : PureCall) : Outcome PyVal :=
  match c with
  | AccessTokenRequest_kwargs _ => script_token_request sc
  | from_urlencoded cls params => Ret (PMessage cls (str_dict params))
  | to_json _ => Ret (PStr "{}")
  | urlencode_to_dict _ => Ret (PStr "code=abc")
  end.

(** Single-valued claims are released as their one value. *)
Definition toy_combine (items : list (string * PyVal))
  : list (string * PyVal) :=
  map (fun kv => (kv.1, match kv.2 with
                        | PList [x] => x
                        | v => v
                        end)) items.

Definition toy_endpoint (name : string) (is_token : bool) : Endpoint :=
  {| endpoint_name := name; isinstance_Token := is_token;
     response_placement := PStr "url" |}.

Definition toy_env (sc : Script) : Env ToyStorage :=
  {| frontend_name := "OIDC";
     endpoint_authorization := toy_endpoint "authorization" false;
     endpoint_token := toy_endpoint "token" true;
     endpoint_userinfo := toy_endpoint "userinfo" false;
     claims_supported := PList [PStr "sub"; PStr "email"];
     default_target_backend := PStr "saml2";
     extern := toy_extern sc;
     pure := toy_pure sc;
     combine_claim_values := toy_combine;
     storage_get_client_by_id := fun _ _ => script_client sc;
     storage_get_claims_from_sid := fun _ _ => Ret (PDict []);
     storage_store_session_to_db := fun sman _ _ => (Ret tt, db sman);
     storage_load_session_from_db :=
       fun _ _ sman s => (Ret (script_data sc), ({| db := db sman ++ s |}, s)) |}.

Definition toy_world (clients : gmap string PyVal)
    (stale : list (string * (string * PyVal))) : World ToyStorage :=
  {| ec := {| cdb := clients; session_manager := {| db := stale |};
              userinfo := PNone |};
     storage := [("sid0", ("oidcop.session.info.ClientSessionInfo", PDict []))] |}.

Definition toy_context (params : list (string * string)) : ExtendedContext :=
  {| request := params;
     http_headers := Some [("Host", "op.example")];
     request_method := "POST";
     request_uri := "/token";
     request_authorization := Some "Bearer abc";
     state := ∅;
     target_backend := PNone;
     internal_data := PNone |}.

(** A request of client c1, and a world in which an earlier request left
    client c0 in the client database and a session in memory. *)
Definition c1_context : ExtendedContext := toy_context [("client_id", "c1")].

Definition stale_sessions : list (string * (string * PyVal)) :=
  [("old", ("oidcop.session.grant.Grant", PDict [("sub", PStr "u0")]))].

Definition c0_world : World ToyStorage :=
  toy_world {[ "c0" := PDict [] ]} stale_sessions.

Definition happy_script : Script :=
  {| script_client := Ret (PDict [("client_name", PStr "RP")]);
     script_data := [];
     script_token_request :=
       Ret (PMessage AccessTokenRequest [("client_id", PStr "c1")]);
     script_parse :=
       Ret (PMessage AuthorizationRequest [("client_id", PStr "c1")]);
     script_process := Ret (PDict [("response_args", PDict [])]);
     script_authz_part2 := Ret (PDict [("response_args", PDict [])]);
     script_do_response := Ret (PDict [("response", PStr "https://rp/cb?")]) |}.

(** Variations of the script. *)
Definition with_data (data : list (string * PyVal)) (sc : Script) : Script :=
  {| script_client := script_client sc;
     script_data := data;
     script_token_request := script_token_request sc;
     script_parse := script_parse sc;
     script_process := script_process sc;
     script_authz_part2 := script_authz_part2 sc;
     script_do_response := script_do_response sc |}.

Definition with_process (o : Outcome PyVal) (sc : Script) : Script :=
  {| script_client := script_client sc;
     script_data := script_data sc;
     script_token_request := script_token_request sc;
     script_parse := script_parse sc;
     script_process := o;
     script_authz_part2 := script_authz_part2 sc;
     script_do_response := script_do_response sc |}.

Definition with_authz_part2 (o : Outcome PyVal) (sc : Script) : Script :=
  {| script_client := script_client sc;
     script_data := script_data sc;
     script_token_request := script_token_request sc;
     script_parse := script_parse sc;
     script_process := script_process sc;
     script_authz_part2 := o;
     script_do_response := script_do_response sc |}.

Definition with_do_response (o : Outcome PyVal) (sc : Script) : Script :=
  {| script_client := script_client sc;
     script_data := script_data sc;
     script_token_request := script_token_request sc;
     script_parse := script_parse sc;
     script_process := script_process sc;
     script_authz_part2 := script_authz_part2 sc;
     script_do_response := o |}.

(** The context of a request that comes back from the backend: the
    authorization request of client c1 was remembered in its state. *)
Definition c1_backend_context : ExtendedContext :=
  {| request := [];
     http_headers := Some [("Host", "op.example")];
     request_method := "POST";
     request_uri := "/acs";
     request_authorization := None;
     state := {[ "OIDC" := [("oidc_request", [("client_id", "c1")])] ]};
     target_backend := PNone;
     internal_data := PNone |}.

Definition u1_response : list (string * PyVal) :=
  [("subject_id", PStr "u1");
   ("attributes", PDict [("mail", PList [PStr "u1@example.org"])])].

(** ** The remaining endpoints of the frontend *)

(** What [OidcOpFrontend.__init__] keeps of the configuration:
    [self.config.endpoint], [self.config["keys"]], the JWKS document read
    from [keys.public_path], and the provider-configuration endpoint of the
    oidcop server. *)
Record FrontendConfig := {
  config_endpoint : list (string * list (string * PyVal));
  config_keys : list (string * PyVal);
  jwks_public : PyVal;
  endpoint_provider_config : Endpoint
}.

(** The bound methods of the frontend whose name ends in [_endpoint]. *)
Inductive EndpointMethod :=
  | jwks_method
  | provider_info_method
  | authorization_method
  | token_method
  | userinfo_method
  | client_registration_method
  | introspection_method.

(** [getattr(self, f"{k}_endpoint")] *)
Definition getattr_endpoint (k : string) : Outcome EndpointMethod :=
  let attr := k ++ "_endpoint" in
  if String.eqb attr "jwks_endpoint" then Ret jwks_method
  else if String.eqb attr "provider_info_endpoint" then Ret provider_info_method
  else if String.eqb attr "authorization_endpoint" then Ret authorization_method
  else if String.eqb attr "token_endpoint" then Ret token_method
  else if String.eqb attr "userinfo_endpoint" then Ret userinfo_method
  else if String.eqb attr "client_registration_endpoint"
       then Ret client_registration_method
  else if String.eqb attr "introspection_endpoint" then Ret introspection_method
  else Raise (mkExn AttributeError
                ("'OidcOpFrontend' object has no attribute '" ++ attr ++ "'")).

(** The list comprehension of [register_endpoints]: for each configured
    endpoint, its path and the method named after it. *)
Fixpoint url_map_of (items : list (string * list (string * PyVal)))
  : Outcome (list (PyVal * EndpointMethod)) :=
  match items with
  | [] => Ret []
  | (k, v) :: rest =>
      match dict_get "path" v with
      | None => Raise (mkExn KeyError "'path'")
      | Some path =>
          match getattr_endpoint k with
          | Raise e => Raise e
          | Ret method =>
              match url_map_of rest with
              | Raise e => Raise e
              | Ret r => Ret ((path, method) :: r)
              end
          end
      end
  end.

(** [OidcOpFrontend.register_endpoints]; the second component is the
    attribute [self.endpoints] after the call. *)
Definition register_endpoints (C : FrontendConfig) (backend_names : list string)
    (endpoints : option (list (PyVal * EndpointMethod)))
  : Outcome (list (PyVal * EndpointMethod)) *
    option (list (PyVal * EndpointMethod)) :=
  match url_map_of (config_endpoint C) with
  | Raise e => (Raise e, endpoints)
  | Ret url_map =>
      match dict_get "uri_path" (config_keys C) with
      | None => (Raise (mkExn KeyError "'uri_path'"), endpoints)
      | Some uri_path =>
          let url_map := (url_map ++ [(uri_path, jwks_method)])%list in
          (Ret url_map, Some url_map)
      end
  end.

Section DiscoveryEndpoints.
Context {Storage : Type} (E : Env Storage) (C : FrontendConfig).
Local Open Scope py_scope.

(** [OidcOpEndpoints.jwks_endpoint] *)
Definition jwks_endpoint (context : ExtendedContext) : M Storage PyVal :=
  ret (PJsonResponse (jwks_public C) None).

(** [OidcOpEndpoints.provider_info_endpoint] *)
Definition provider_info_endpoint (context : ExtendedContext)
  : M Storage PyVal :=
  let endpoint := endpoint_provider_config C in
  let http_headers := _get_http_headers context in
  parse_req <-
    call E (parse_request endpoint (PDict (str_dict (request context)))
              (PDict http_headers)) ;;
  proc_req <- call E (process_request endpoint parse_req (PDict http_headers)) ;;
  info <-
    call E (do_response endpoint (PDict (str_dict (request context)))
              proc_req) ;;
  response <- lift (py_getitem info "response") ;;
  ret (PJsonResponse response None).

(** [OidcOpEndpoints.client_registration_endpoint] *)
Definition client_registration_endpoint (context : ExtendedContext)
  : M Storage PyVal :=
  raise (mkExn NotImplementedError "").

(** [OidcOpEndpoints.introspection_endpoint] *)
Definition introspection_endpoint (context : ExtendedContext)
  : M Storage PyVal :=
  raise (mkExn NotImplementedError "").
End DiscoveryEndpoints.

(** ** tests/util.py: the module-level functions and the methods of
    FileGenerator *)

(** What evaluating a name that is bound nowhere raises. *)
Definition unbound (name : string) : Exn :=
  mkExn NameError ("name '" ++ name ++ "' is not defined").

Module Util.

(** The module-level [generate_cert()]. [OpenSSLWrapper] is neither defined
    nor imported in the module and is no builtin: once [cert_info] is built,
    the call [OpenSSLWrapper()] raises, and [create_certificate] is never
    reached. *)
Definition generate_cert : Outcome (string * string) :=
  let cert_info :=
    [("cn", "localhost"); ("country_code", "se"); ("state", "ac");
     ("city", "Umea"); ("organization", "ITS");
     ("organization_unit", "DIRG")] in
  Raise (unbound "OpenSSLWrapper").

(** [create_metadata_from_config_dict(config)]: the name is bound nowhere in
    the module, so the call raises before anything is created. *)
Definition create_metadata_from_config_dict (config : PyVal)
  : Outcome string :=
  Raise (unbound "create_metadata_from_config_dict").

End Util.

Module FileGeneratorMethods.

(** The attributes of the instance and the temporary files created so far
    (by name, with what was written to them). Files are referred to by their
    name. *)
Record GenState := {
  generate_certs : gmap string (nat * nat);
  metadata : gmap string nat;
  files : gmap nat string
}.

Definition set_files (f : gmap nat string) (s : GenState) : GenState :=
  {| generate_certs := generate_certs s; metadata := metadata s;
     files := f |}.

(** [tempfile.NamedTemporaryFile()]: a new, empty file. *)
Definition NamedTemporaryFile (s : GenState) : nat * GenState :=
  let f := fresh (dom (files s)) in
  (f, set_files (<[ f := "" ]> (files s)) s).

(** [f.write(data)] followed by [f.flush()] *)
Definition write_flush (f : nat) (data : string) (s : GenState) : GenState :=
  set_files (alter (fun c => c ++ data) f (files s)) s.

(** [FileGenerator.generate_cert]; [code] is [None] or a string. *)
Definition generate_cert (code : option string) (s : GenState)
  : Outcome (nat * nat) * GenState :=
  match code ≫= (fun c => generate_certs s !! c) with
  | Some cached => (Ret cached, s)
  | None =>
      match Util.generate_cert with
      | Raise e => (Raise e, s)
      | Ret (cert_str, key_str) =>
          let '(cert_file, s) := NamedTemporaryFile s in
          let s := write_flush cert_file cert_str s in
          let '(key_file, s) := NamedTemporaryFile s in
          let s := write_flush key_file key_str s in
          let s :=
            match code with
            | Some c =>
                {| generate_certs :=
                     <[ c := (cert_file, key_file) ]> (generate_certs s);
                   metadata := metadata s; files := files s |}
            | None => s
            end in
          (Ret (cert_file, key_file), s)
      end
  end.

(** [FileGenerator.create_metadata]; the file is cached under [code] only
    when [code] is true ([if code:]). *)
Definition create_metadata (config : PyVal) (code : option string)
    (s : GenState) : Outcome nat * GenState :=
  match code ≫= (fun c => metadata s !! c) with
  | Some cached => (Ret cached, s)
  | None =>
      match Util.create_metadata_from_config_dict config with
      | Raise e => (Raise e, s)
      | Ret desc =>
          let '(tmp_file, s) := NamedTemporaryFile s in
          let s := write_flush tmp_file desc s in
          let s :=
            if opt_truthy str_empty code then
              {| generate_certs := generate_certs s;
                 metadata := <[ default "" code := tmp_file ]> (metadata s);
                 files := files s |}
            else s in
          (Ret tmp_file, s)
      end
  end.

(** The instance as [__init__] leaves it, with no temporary file yet. *)
Definition empty_state : GenState :=
  {| generate_certs := ∅; metadata := ∅; files := ∅ |}.

(** A use of the generator: any sequence of calls of the two methods. A
    call answers with the files it returns. *)
Inductive MethodCall :=
  | GenerateCert (code : option string)
  | CreateMetadata (config : PyVal) (code : option string).

Definition call_method (c : MethodCall) (s : GenState)
  : Outcome (list nat) * GenState :=
  match c with
  | GenerateCert code =>
      match generate_cert code s with
      | (Ret (cert_file, key_file), s') => (Ret [cert_file; key_file], s')
      | (Raise e, s') => (Raise e, s')
      end
  | CreateMetadata config code =>
      match create_metadata config code s with
      | (Ret tmp_file, s') => (Ret [tmp_file], s')
      | (Raise e, s') => (Raise e, s')
      end
  end.

Fixpoint run_methods (calls : list MethodCall) (s : GenState)
  : list (Outcome (list nat)) * GenState :=
  match calls with
  | [] => ([], s)
  | c :: rest =>
      let '(o, s') := call_method c s in
      let '(os, s'') := run_methods rest s' in
      (o :: os, s'')
  end.

(** What a call ends with on an instance that has nothing cached. *)
Definition raised_by (c : MethodCall) : Exn :=
  match c with
  | GenerateCert _ => unbound "OpenSSLWrapper"
  | CreateMetadata _ _ => unbound "create_metadata_from_config_dict"
  end.

End FileGeneratorMethods.

(** ** tests/util.py: the fake and test plugins *)

Module TestPlugins.

(** [FakeBackend]: the two functions it is constructed with. *)
Record FakeBackend := {
  start_auth_func : option (PyVal -> PyVal -> PyVal -> Outcome PyVal);
  register_endpoints_func : option (unit -> Outcome PyVal)
}.

Definition RecursionError : Exn :=
  mkExn (OtherException "RecursionError") "maximum recursion depth exceeded".

(** [FakeBackend.start_auth]. The attribute tested and called is
    [self.start_auth], the method itself (a bound method is true), not
    [self.start_auth_func]. [depth] is what is left of the interpreter's
    recursion limit. *)
Fixpoint start_auth (depth : nat) (self : FakeBackend)
    (context request_info state : PyVal) : Outcome PyVal :=
  match depth with
  | 0 => Raise RecursionError
  | S depth => start_auth depth self context request_info state
  end.

(** [FakeBackend.register_endpoints] *)
Definition fake_register_endpoints (self : FakeBackend) : Outcome PyVal :=
  match register_endpoints_func self with
  | Some f => f tt
  | None => Ret PNone
  end.

Inductive TestMethod := handle_request | handle_response.

(** [TestBackend.register_endpoints] *)
Definition backend_register_endpoints (name : string)
  : list (string * TestMethod) :=
  [("^" ++ name ++ "/response$", handle_response)].

(** [TestFrontend.register_endpoints] *)
Definition frontend_register_endpoints (name : string)
    (backend_names : list string) : list (string * TestMethod) :=
  map (fun p => ("^" ++ p ++ "/" ++ name ++ "/request$", handle_request))
    backend_names.

End TestPlugins.

(** A script whose parser answers with another value. *)
Definition with_parse (o : Outcome PyVal) (sc : Script) : Script :=
  {| script_client := script_client sc;
     script_data := script_data sc;
     script_token_request := script_token_request sc;
     script_parse := o;
     script_process := script_process sc;
     script_authz_part2 := script_authz_part2 sc;
     script_do_response := script_do_response sc |}.

Definition toy_config : FrontendConfig :=
  {| config_endpoint :=
       [("provider_info", [("path", PStr ".well-known/openid-configuration")]);
        ("authorization", [("path", PStr "authorization")]);
        ("token", [("path", PStr "token")]);
        ("userinfo", [("path", PStr "userinfo")])];
     config_keys := [("public_path", PStr "jwks.json");
                     ("uri_path", PStr "static/jwks.json")];
     jwks_public := PStr "{}";
     endpoint_provider_config := toy_endpoint "provider_config" false |}.

(** ** Vocabulary of the statements *)

Section Vocabulary.
Context {Storage : Type}.

(** The world with another content of the in-memory session manager. *)
Definition with_session_manager (sm : SMan) (w : World Storage)
  : World Storage :=
  {| ec := {| cdb := cdb (ec w); session_manager := sm;
              userinfo := userinfo (ec w) |};
     storage := storage w |}.

Definition flush_world (w : World Storage) : World Storage :=
  with_session_manager {| db := [] |} w.

(** No session is held in process memory. *)
Definition flushed (w : World Storage) : Prop :=
  db (session_manager (ec w)) = [].

(** Whenever [m] returns (rather than raises), [Q] holds of the value and
    of the world it leaves. *)
Definition returns {A} (m : M Storage A) (Q : A → World Storage → Prop)
  : Prop :=
  ∀ w a w', m w = (Ret a, w') → Q a w'.

(** A response body is a JSON object with the two error fields. *)
Definition has_error_fields (response : PyVal) : bool :=
  match response with
  | PJsonResponse body _ =>
      py_contains "error" body && py_contains "error_description" body
  | _ => false
  end.

Definition response_status (response : PyVal) : option string :=
  match response with
  | PJsonResponse _ status => status
  | _ => None
  end.

Definition response_error (response : PyVal) : option PyVal :=
  match response with
  | PJsonResponse body _ => py_items body ≫= dict_get "error"
  | _ => None
  end.
End Vocabulary.

Section MoreVocabulary.
Context {Storage : Type}.

(** The world with another client database. *)
Definition with_cdb (c : gmap string PyVal) (w : World Storage)
  : World Storage :=
  {| ec := {| cdb := c; session_manager := session_manager (ec w);
              userinfo := userinfo (ec w) |};
     storage := storage w |}.

(** Started in a world where [P] holds, whenever [m] returns, [Q] holds of
    the value and of the world it leaves. *)
Definition triple {A} (P : World Storage → Prop) (m : M Storage A)
    (Q : A → World Storage → Prop) : Prop :=
  ∀ w a w', P w → m w = (Ret a, w') → Q a w'.

(** The client id a lookup uses: the one it is given if that is true, the
    request's otherwise. *)
Definition looked_up (context : ExtendedContext) (client_id : option string)
  : option string :=
  str_or client_id (dict_get "client_id" (request context)).


(** The world with other claims loaded into the endpoint context's
    userinfo. *)
Definition with_userinfo (u : PyVal) (w : World Storage) : World Storage :=
  {| ec := {| cdb := cdb (ec w); session_manager := session_manager (ec w);
              userinfo := u |};
     storage := storage w |}.
End MoreVocabulary.

(** A string of ASCII characters: every byte is below 128. On such a string
    [lower] is [str.lower]. *)
Definition is_ascii (s : string) : bool :=
  forallb (fun c => (nat_of_ascii c <? 128)%nat) (list_ascii_of_string s).

(** The headers of a request that [_get_http_headers] passes on under the
    name [name]: those not ignored whose lower-cased name it is. *)
Definition passed_on_as (name : string) (h : list (string * string))
  : list (string * string) :=
  filter (fun kv => (kv.1 ∉ IGNORED_HEADERS) ∧ lower kv.1 = name) h.

(** * Properties *)

(** ** Dictionaries *)

Section DictFacts.
Context {V : Type}.
Implicit Types (d items : list (string * V)) (k : string) (v : V).

Lemma dict_get_set k k' v d :
  dict_get k (dict_set k' v d) =
  if String.eqb k k' then Some v else dict_get k d.
Proof.
  induction d as [|[k0 v0] d IH]; simpl.
  - destruct (String.eqb_spec k k'); reflexivity.
  - destruct (String.eqb_spec k' k0) as [->|Hne]; simpl.
    + destruct (String.eqb_spec k k0); reflexivity.
    + destruct (String.eqb_spec k k0) as [->|Hne'].
      * destruct (String.eqb_spec k0 k'); congruence.
      * exact IH.
Qed.

Lemma dict_get_elem k v d : dict_get k d = Some v → (k, v) ∈ d.
Proof.
  induction d as [|[k0 v0] d IH]; simpl; [discriminate|].
  destruct (String.eqb_spec k k0) as [->|Hne].
  - intros [= ->]. apply list_elem_of_here.
  - intros H. apply list_elem_of_further, IH, H.
Qed.

Lemma dict_get_None k d : k ∉ d.*1 → dict_get k d = None.
Proof.
  induction d as [|[k0 v0] d IH]; simpl; [reflexivity|].
  intros Hk. destruct (String.eqb_spec k k0) as [->|Hne].
  - exfalso. apply Hk. apply list_elem_of_here.
  - apply IH. intros Hin. apply Hk. apply list_elem_of_further, Hin.
Qed.

Lemma dict_get_NoDup k v d : NoDup d.*1 → (k, v) ∈ d → dict_get k d = Some v.
Proof.
  induction d as [|[k0 v0] d IH]; simpl; intros Hnd Hin.
  - inversion Hin.
  - apply NoDup_cons in Hnd as [Hk0 Hnd].
    apply elem_of_cons in Hin as [[= -> ->]|Hin].
    + rewrite String.eqb_refl. reflexivity.
    + destruct (String.eqb_spec k k0) as [->|Hne]; [|by apply IH].
      exfalso. apply Hk0. apply list_elem_of_fmap. by exists (k0, v).
Qed.

Lemma dict_of_items_from_elem k v items d :
  dict_get k (fold_left (fun d kv => dict_set kv.1 kv.2 d) items d) = Some v →
  (k, v) ∈ items ∨ dict_get k d = Some v.
Proof.
  revert d. induction items as [|[k0 v0] items IH]; simpl; intros d H.
  - by right.
  - apply IH in H as [H|H]; [left; by apply list_elem_of_further|].
    rewrite dict_get_set in H.
    destruct (String.eqb_spec k k0) as [->|Hne]; [|by right].
    injection H as ->. left. apply list_elem_of_here.
Qed.

Lemma dict_of_items_elem k v items :
  dict_get k (dict_of_items items) = Some v → (k, v) ∈ items.
Proof.
  intros H. apply dict_of_items_from_elem in H as [H|H]; [done|discriminate].
Qed.

Lemma dict_of_items_keys k items :
  k ∉ items.*1 → dict_get k (dict_of_items items) = None.
Proof.
  intros Hk. destruct (dict_get k (dict_of_items items)) as [v|] eqn:H; [|done].
  exfalso. apply Hk. apply dict_of_items_elem in H.
  apply list_elem_of_fmap. by exists (k, v).
Qed.

Lemma dict_set_keys k v d k1 :
  k1 ∈ (dict_set k v d).*1 → k1 = k ∨ k1 ∈ d.*1.
Proof.
  induction d as [|[k0 v0] d IH]; simpl.
  - intros H. apply list_elem_of_singleton in H. by left.
  - destruct (String.eqb_spec k k0) as [->|Hne]; simpl; intros H.
    + by right.
    + apply elem_of_cons in H as [->|H].
      * right. apply list_elem_of_here.
      * apply IH in H as [H|H]; [by left|].
        right. by apply list_elem_of_further.
Qed.

Lemma dict_set_NoDup k v d : NoDup d.*1 → NoDup (dict_set k v d).*1.
Proof.
  induction d as [|[k0 v0] d IH]; simpl; intros Hd.
  - apply NoDup_singleton.
  - apply NoDup_cons in Hd as [Hk0 Hd].
    destruct (String.eqb_spec k k0) as [->|Hne]; simpl.
    + by apply NoDup_cons.
    + apply NoDup_cons. split; [|by apply IH].
      intros Hin. apply dict_set_keys in Hin as [->|Hin]; done.
Qed.

Lemma dict_of_items_NoDup items : NoDup (dict_of_items items).*1.
Proof.
  unfold dict_of_items.
  assert (H : ∀ d, NoDup d.*1 →
    NoDup (fold_left (fun d kv => dict_set kv.1 kv.2 d) items d).*1).
  { induction items as [|[k v] items IH]; simpl; intros d Hd; [done|].
    by apply IH, dict_set_NoDup. }
  apply H, NoDup_nil_2.
Qed.
End DictFacts.

(** ** Request headers *)

(** C9: when [request_authorization] holds a non-empty value, the "headers"
    entry of the mapping returned by [_get_http_headers] is exactly the
    authorization header; with no [context.http_headers] the mapping has no
    other entry (no "method", no "url"), otherwise it keeps "method" and
    "url" next to the replaced "headers". *)
Theorem get_http_headers_authorization_only
    (context : ExtendedContext) (auth : string) :
  request_authorization context = Some auth →
  auth ≠ "" →
  let only_auth := PDict [("authorization", PStr auth)] in
  dict_get "headers" (_get_http_headers context) = Some only_auth ∧
  _get_http_headers context =
    if opt_truthy is_empty (http_headers context)
    then [("headers", only_auth);
          ("method", PStr (request_method context));
          ("url", PStr (request_uri context))]
    else [("headers", only_auth)].
Proof.
  intros Hauth Hne. unfold _get_http_headers. rewrite Hauth. simpl.
  destruct (String.eqb_spec auth "") as [->|_]; [done|]. simpl.
  destruct (opt_truthy is_empty (http_headers context)); simpl; done.
Qed.

Lemma get_http_headers_authorization_only_witness :
  dict_get "headers" (_get_http_headers (toy_context [])) =
    Some (PDict [("authorization", PStr "Bearer abc")]) ∧
  dict_get "method" (_get_http_headers (toy_context [])) = Some (PStr "POST").
Proof.
  destruct (get_http_headers_authorization_only (toy_context []) "Bearer abc")
    as [H1 H2]; [reflexivity | discriminate |].
  split; [exact H1 | rewrite H2; reflexivity].
Defined.

(** Without an authorization value the request's own headers get through,
    lower-cased, minus the ignored ones. *)
Example get_http_headers_plain :
  _get_http_headers
    {| request := []; http_headers := Some [("Host", "op"); ("cookie", "x")];
       request_method := "GET"; request_uri := "/"; request_authorization := None;
       state := ∅; target_backend := PNone; internal_data := PNone |} =
  [("headers", PDict [("host", PStr "op")]);
   ("method", PStr "GET"); ("url", PStr "/")].
Proof. reflexivity. Qed.

(** ** Released claims *)

Lemma filter_unset_claims_elem (_claims : list (string * PyVal)) k v :
  dict_get k (filter_unset_claims _claims) = Some v →
  truthy v = true ∧ (k, v) ∈ _claims.
Proof.
  intros H. apply dict_of_items_elem, list_elem_of_filter in H as [Ht Hin].
  split; [|done]. simpl in Ht. by destruct (truthy v).
Qed.

Example released_claims_example :
  combined_claims (toy_env happy_script)
    [("sub", PList [PStr "u1"]); ("mail", PList []); ("name", PNone);
     ("phone", PStr "")] = [("sub", PStr "u1")].
Proof. reflexivity. Qed.

(** ** The FileGenerator singleton *)

Module FileGeneratorFacts.
Import FileGenerator.

Lemma initial_inv : singleton_inv initial.
Proof. split; [intros a o H; simpl in H; by rewrite lookup_empty in H | done]. Qed.

Lemma fresh_heap (s : ClassState) : heap s !! fresh (dom (heap s)) = None.
Proof. apply not_elem_of_dom, is_fresh. Qed.

Lemma construct_taken s i :
  _instance s = Some i →
  ∃ s', construct s =
          (Raise (mkExn TypeError
                    "Singletons must be accessed through `get_instance()`."),
           s') ∧
        _instance s' = Some i ∧
        (singleton_inv s → singleton_inv s').
Proof.
  intros Hi. unfold construct, alloc, __init__. simpl. rewrite Hi.
  eexists. split; [reflexivity|]. split; [done|].
  intros [H1 H2]. split; simpl.
  - intros a o Ha Ho.
    destruct (decide (a = fresh (dom (heap s)))) as [->|Hne].
    + rewrite lookup_insert_eq in Ha. injection Ha as <-.
      destruct Ho as [[? Ho] _]. discriminate.
    + rewrite lookup_insert_ne in Ha by done.
      rewrite <- Hi. by eapply H1.
  - intros j [= <-].
    destruct (H2 i Hi) as (o & Ho & Hinit). exists o. split; [|done].
    rewrite lookup_insert_ne; [done|].
    intros <-. rewrite fresh_heap in Ho. discriminate.
Qed.

Lemma construct_free s :
  _instance s = None → singleton_inv s →
  ∃ a s', construct s = (Ret a, s') ∧ _instance s' = Some a ∧
          singleton_inv s'.
Proof.
  intros Hi [H1 H2]. unfold construct, alloc, __init__. simpl. rewrite Hi.
  eexists _, _. split; [reflexivity|]. split; [done|]. split; simpl.
  - intros a o Ha Ho.
    destruct (decide (a = fresh (dom (heap s)))) as [->|Hne]; [done|].
    rewrite !lookup_insert_ne in Ha by done.
    specialize (H1 a o Ha Ho). congruence.
  - intros j [= <-]. rewrite lookup_insert_eq. eexists. split; [done|].
    split; simpl; eauto.
Qed.

Lemma step_inv c s o s' :
  singleton_inv s → step c s = (o, s') →
  singleton_inv s' ∧
  (∀ i, _instance s = Some i → _instance s' = Some i) ∧
  (∀ r, o = Ret r → is_Some r ∧ r = _instance s') ∧
  (c = GetInstance → ∃ a, o = Ret (Some a)).
Proof.
  intros Hinv Hstep. destruct (_instance s) as [i|] eqn:Hi.
  - destruct (construct_taken s i Hi) as (s1 & Hc & Hi1 & Hinv1).
    destruct c; simpl in Hstep.
    + rewrite Hc in Hstep. injection Hstep as <- <-.
      split; [by apply Hinv1|]. split; [by intros j [= <-]|].
      split; [discriminate|discriminate].
    + unfold get_instance in Hstep. rewrite Hi in Hstep.
      injection Hstep as <- <-.
      split; [done|]. split; [by intros j [= <-]|].
      split; [|by eauto]. intros r [= <-]. rewrite Hi. eauto.
  - destruct (construct_free s Hi Hinv) as (a & s1 & Hc & Hi1 & Hinv1).
    destruct c; simpl in Hstep.
    + rewrite Hc in Hstep. injection Hstep as <- <-.
      split; [done|]. split; [discriminate|].
      split; [|discriminate]. intros r [= <-]. rewrite Hi1. eauto.
    + unfold get_instance in Hstep. rewrite Hi, Hc in Hstep.
      injection Hstep as <- <-. simpl.
      assert (Heq : {| _instance := Some a; heap := heap s1 |} = s1)
        by (destruct s1; simpl in *; congruence).
      rewrite Heq. split; [done|]. split; [discriminate|].
      split; [|by eauto]. intros r [= <-]. rewrite ?Hi1. eauto.
Qed.

Lemma run_inv calls s rs s' :
  singleton_inv s → run calls s = (rs, s') →
  singleton_inv s' ∧
  (∀ i, _instance s = Some i → _instance s' = Some i) ∧
  (∀ n r, rs !! n = Some (Ret r) → is_Some r ∧ r = _instance s') ∧
  (∀ n, calls !! n = Some GetInstance → ∃ a, rs !! n = Some (Ret (Some a))).
Proof.
  revert s rs s'.
  induction calls as [|c calls IH]; simpl; intros s rs s' Hinv Hrun.
  - injection Hrun as <- <-.
    split; [done|]. split; [done|]. split; intros k; [intros r|];
      rewrite lookup_nil; discriminate.
  - destruct (step c s) as [o s1] eqn:Hstep.
    destruct (run calls s1) as [os s2] eqn:Hrest.
    injection Hrun as <- <-.
    destruct (step_inv _ _ _ _ Hinv Hstep) as (Hinv1 & Hkeep1 & Hret1 & Hget1).
    destruct (IH _ _ _ Hinv1 Hrest) as (Hinv2 & Hkeep2 & Hret2 & Hget2).
    split; [done|]. split; [by auto|]. split.
    + intros [|k] r H; simpl in H; [|by eapply Hret2].
      injection H as ->. destruct (Hret1 r eq_refl) as [[a Ha] Hr].
      split; [by eauto|]. subst r. symmetry in Hr.
      by rewrite (Hkeep2 a Hr).
    + intros [|k] Hk; simpl in *; [|by apply Hget2].
      injection Hk as ->. destruct (Hget1 eq_refl) as [a ->]. eauto.
Qed.

(** C10: in a process that calls the constructor and [get_instance] in any
    order, every call that returns gives the same object, the one
    registered in [_instance]; [get_instance] always returns it;
    constructing directly while an instance is registered raises
    [TypeError] and leaves the registration alone; and no object other than
    the registered one was ever initialised. *)
Theorem FileGenerator_singleton (calls : list Call) :
  (∀ n m a b,
     (run calls initial).1 !! n = Some (Ret a) →
     (run calls initial).1 !! m = Some (Ret b) →
     a = b ∧ is_Some a) ∧
  (∀ n, calls !! n = Some GetInstance →
        ∃ a, (run calls initial).1 !! n = Some (Ret (Some a)) ∧
             _instance (run calls initial).2 = Some a) ∧
  (∀ n, calls !! n = Some Construct →
        is_Some (_instance (run (take n calls) initial).2) →
        ∃ e, (run calls initial).1 !! n = Some (Raise e) ∧
             exn_class e = TypeError) ∧
  (∀ a o, heap (run calls initial).2 !! a = Some o → initialised o →
          _instance (run calls initial).2 = Some a).
Proof.
  destruct (run calls initial) as [rs s'] eqn:Hrun. simpl.
  destruct (run_inv _ _ _ _ initial_inv Hrun) as (Hinv & _ & Hret & Hget).
  split; [|split; [|split]].
  - intros n m a b Ha Hb. apply Hret in Ha as [Hs ->].
    apply Hret in Hb as [_ ->]. done.
  - intros n Hn. destruct (Hget n Hn) as [a Ha]. exists a. split; [done|].
    apply Hret in Ha as [_ Ha]. done.
  - intros n Hn Hsome. clear Hinv Hret Hget.
    revert n rs s' Hrun Hn Hsome. generalize initial_inv.
    generalize initial as s.
    induction calls as [|c calls IH]; intros s Hinv n rs s' Hrun Hn Hsome.
    + rewrite lookup_nil in Hn. discriminate.
    + simpl in Hrun. destruct (step c s) as [o s1] eqn:Hstep.
      destruct (run calls s1) as [os s2] eqn:Hrest.
      injection Hrun as <- <-. destruct n as [|n]; simpl in *.
      * injection Hn as ->. destruct Hsome as [i Hi].
        destruct (construct_taken s i Hi) as (s1' & Hc & _).
        simpl in Hstep. rewrite Hc in Hstep. injection Hstep as <- <-.
        eexists. split; [reflexivity|done].
      * rewrite Hstep in Hsome.
        destruct (run (take n calls) s1) as [os' s2'] eqn:Hpre.
        simpl in Hsome.
        destruct (step_inv _ _ _ _ Hinv Hstep) as (Hinv1 & _).
        eapply (IH s1 Hinv1 n os s2 Hrest Hn). by rewrite Hpre.
  - apply Hinv.
Qed.

Example FileGenerator_run :
  (run [GetInstance; Construct; GetInstance] initial).1 =
  [Ret (Some 0);
   Raise (mkExn TypeError
            "Singletons must be accessed through `get_instance()`.");
   Ret (Some 0)].
Proof. vm_compute. reflexivity. Qed.

End FileGeneratorFacts.

(** ** Session round trip *)

Module SessionSpecFacts.
Import SessionSpec.

(** C7: creating a session for a subject and a client in a store that is
    not exhausted succeeds, and loading the created session back by its id
    returns that session, with the subject and the client given at
    creation. *)
Theorem create_then_load (subject : string) (client : Client)
    (ev : AuthnEvent) (scopes : list string) (st : Store) :
  (size (sessions st) < capacity st)%nat →
  ∃ s st',
    create subject client ev scopes st = inr (s, st') ∧
    load (session_id s) st' = inr s ∧
    subject_id s = subject ∧
    client_id s = client_ident client ∧
    granted_scopes s = scopes.
Proof.
  intros Hcap. unfold create.
  destruct (decide (capacity st ≤ size (sessions st))%nat) as [Hle|_]; [lia|].
  eexists _, _. split; [reflexivity|]. unfold load. simpl.
  rewrite lookup_insert_eq. simpl. done.
Qed.

Lemma create_then_load_witness :
  ∃ s st',
    create "u1" {| client_ident := "c1"; redirect_uris := ["https://rp/cb"] |}
      {| authn_time := 0; authn_method := "pwd"; salt := "s" |}
      ["openid"; "profile"] {| sessions := ∅; capacity := 1 |} = inr (s, st') ∧
    load (session_id s) st' = inr s ∧
    subject_id s = "u1" ∧ client_id s = "c1" ∧
    granted_scopes s = ["openid"; "profile"].
Proof.
  apply (create_then_load "u1"
           {| client_ident := "c1"; redirect_uris := ["https://rp/cb"] |}).
  simpl. rewrite map_size_empty. lia.
Defined.

(** A session created earlier is still loaded as it was. *)
Lemma create_keeps_others subject client ev scopes st s st' sid :
  create subject client ev scopes st = inr (s, st') →
  is_Some (sessions st !! sid) →
  load sid st' = load sid st.
Proof.
  unfold create. destruct (decide _); [discriminate|].
  intros [= <- <-] [s0 Hs0]. unfold load. simpl.
  rewrite lookup_insert_ne; [done|].
  intros <-. pose proof (is_fresh (dom (sessions st))) as Hf.
  apply Hf, elem_of_dom. eauto.
Qed.

End SessionSpecFacts.

(** ** The monad *)

Section MonadFacts.
Context {Storage : Type}.
Implicit Types w : World Storage.

Lemma bind_run {A B} (m : M Storage A) (k : A → M Storage B) w :
  bind m k w =
  match m w with
  | (Ret a, w') => k a w'
  | (Raise e, w') => (Raise e, w')
  end.
Proof. reflexivity. Qed.

Lemma returns_bind {A B} (m : M Storage A) (k : A → M Storage B) Q :
  (∀ a, returns (k a) Q) → returns (bind m k) Q.
Proof.
  intros Hk w b w'. rewrite bind_run.
  destruct (m w) as [[a|e] w1]; [apply Hk | discriminate].
Qed.

Lemma returns_try_else {A B} (m : M Storage A) h (k : A → M Storage B) Q :
  (∀ e, returns (h e) Q) → (∀ a, returns (k a) Q) →
  returns (try_else m h k) Q.
Proof.
  intros Hh Hk w b w'. unfold try_else.
  destruct (m w) as [[a|e] w1]; [apply Hk | apply Hh].
Qed.

Lemma returns_raise {A} e (Q : A → World Storage → Prop) :
  returns (raise e) Q.
Proof. intros w a w'. discriminate. Qed.

Lemma returns_weaken {A} (m : M Storage A) (P Q : A → World Storage → Prop) :
  returns m P → (∀ a w, P a w → Q a w) → returns m Q.
Proof. intros Hm HPQ w a w' H. eapply HPQ, Hm, H. Qed.

Lemma returns_bind_ret {A B} (m : M Storage A) (f : A → B) P Q :
  returns m P → (∀ a w, P a w → Q (f a) w) →
  returns (bind m (fun a => ret (f a))) Q.
Proof.
  intros Hm HPQ w b w'. rewrite bind_run.
  destruct (m w) as [[a|e] w1] eqn:Hmw; [|discriminate].
  intros [= <- <-]. eapply HPQ, Hm, Hmw.
Qed.

Lemma send_response_run (response : PyVal) w :
  send_response response w = (Ret response, flush_world w).
Proof. reflexivity. Qed.

Lemma returns_send_response (response : PyVal) :
  returns (send_response (Storage := Storage) response)
    (fun _ w => flushed w).
Proof. intros w a w'. rewrite send_response_run. by intros [= <- <-]. Qed.

Lemma handle_error_run msg excp status w :
  handle_error msg excp status w =
  (Ret (PJsonResponse
          (PStr (default ("Something went wrong ... " ++
                          from_option exn_str "" excp)
                   (str_or msg None)))
          (Some status)),
   flush_world w).
Proof. reflexivity. Qed.
End MonadFacts.

(** ** Client lookup *)

Section LoadCdb.
Context {Storage : Type} (E : Env Storage).
Implicit Types w : World Storage.

(** C1 (as amended): [_load_cdb] leaves the storage, the session manager
    and the userinfo as they were. Its one effect on process-wide state is
    on the endpoint context's [cdb], which it overwrites: with the single
    entry for the looked-up client when a client id is given and the storage
    answers, with the empty dict (and [InvalidClient] raised) when no client
    id is given. *)
Theorem load_cdb_effect (context : ExtendedContext)
    (client_id : option string) w :
  let cid := str_or client_id (dict_get "client_id" (request context)) in
  let r := _load_cdb E context client_id w in
  storage r.2 = storage w ∧
  session_manager (ec r.2) = session_manager (ec w) ∧
  userinfo (ec r.2) = userinfo (ec w) ∧
  match cid with
  | Some c =>
      if str_empty c then
        (∃ msg, r.1 = Raise (mkExn InvalidClient msg)) ∧ cdb (ec r.2) = ∅
      else
        match storage_get_client_by_id E c (storage w) with
        | Ret client => r.1 = Ret client ∧ cdb (ec r.2) = {[ c := client ]}
        | Raise e => r.1 = Raise e ∧ cdb (ec r.2) = cdb (ec w)
        end
  | None => (∃ msg, r.1 = Raise (mkExn InvalidClient msg)) ∧ cdb (ec r.2) = ∅
  end.
Proof.
  intros cid r. subst r. unfold _load_cdb. fold cid.
  destruct cid as [c|]; [destruct (str_empty c) eqn:Hc|]; simpl.
  - repeat split; eauto.
  - unfold bind, read_storage.
    destruct (storage_get_client_by_id E c (storage w)); simpl; done.
  - repeat split; eauto.
Qed.

Lemma load_cdb_with_session_manager context client_id sm w :
  _load_cdb E context client_id (with_session_manager sm w) =
  ((_load_cdb E context client_id w).1,
   with_session_manager sm (_load_cdb E context client_id w).2).
Proof.
  unfold _load_cdb.
  destruct (str_or client_id (dict_get "client_id" (request context)))
    as [c|]; [destruct (str_empty c)|]; simpl; try reflexivity.
  unfold bind, read_storage. simpl.
  destruct (storage_get_client_by_id E c (storage w)); reflexivity.
Qed.
End LoadCdb.

(** The claim as stated fails: a lookup for client c1 drops the entry that
    an earlier request left for client c0 and puts its own in its place. *)
Lemma load_cdb_overwrites_cdb :
  cdb (ec c0_world) !! "c0" = Some (PDict []) ∧
  cdb (ec (_load_cdb (toy_env happy_script) c1_context None c0_world).2)
    !! "c0" = None ∧
  cdb (ec (_load_cdb (toy_env happy_script) c1_context None c0_world).2)
    !! "c1" = Some (PDict [("client_name", PStr "RP")]) ∧
  ec (_load_cdb (toy_env happy_script) c1_context None c0_world).2
    ≠ ec c0_world.
Proof.
  repeat split; try (vm_compute; reflexivity).
  intros H. apply (f_equal (fun x => cdb x !! "c0")) in H.
  vm_compute in H. discriminate.
Qed.

(** ** Loading the session *)

Section LoadSession.
Context {Storage : Type} (E : Env Storage).
Implicit Types w : World Storage.

Lemma load_session_run parse_req endpoint http_headers w :
  _load_session E parse_req endpoint http_headers w =
  let '(o, (sman', s')) :=
    storage_load_session_from_db E parse_req http_headers {| db := [] |}
      (storage w) in
  let w' := {| ec := {| cdb := cdb (ec w); session_manager := sman';
                        userinfo := userinfo (ec w) |};
               storage := s' |} in
  match o with
  | Ret data =>
      if truthy (default PNone (dict_get "client_id" data))
      then (Raise (mkExn NameError "name 'sdata' is not defined"), w')
      else (Ret tt, w')
  | Raise e => (Raise e, w')
  end.
Proof.
  unfold _load_session, bind, load_session_from_db,
    _flush_endpoint_context_memory, bind, get_ec, set_session_manager, set_ec,
    flush.
  simpl.
  destruct (storage_load_session_from_db E parse_req http_headers
              {| db := [] |} (storage w)) as [[data|e] [sman' s']]; simpl;
    [|reflexivity].
  destruct (truthy (default PNone (dict_get "client_id" data))); reflexivity.
Qed.

(** The session manager is flushed before the storage is asked: what was
    held in memory has no influence on the load. *)
Lemma load_session_fresh parse_req endpoint http_headers sm w :
  _load_session E parse_req endpoint http_headers (with_session_manager sm w) =
  _load_session E parse_req endpoint http_headers w.
Proof. rewrite !load_session_run. reflexivity. Qed.

(** C8 (as amended): when the storage hands back session data whose
    "client_id" entry has a true value, [_load_session] raises [NameError]
    and the client database is left as it was; when the entry is missing or
    its value is false ([None], empty), [_load_session] returns. In both
    cases [_load_cdb] is not run. *)
Theorem load_session_client_id parse_req endpoint http_headers w data sman' s' :
  storage_load_session_from_db E parse_req http_headers {| db := [] |}
    (storage w) = (Ret data, (sman', s')) →
  ∃ w',
    _load_session E parse_req endpoint http_headers w =
      (if truthy (default PNone (dict_get "client_id" data))
       then Raise (mkExn NameError "name 'sdata' is not defined")
       else Ret tt, w') ∧
    cdb (ec w') = cdb (ec w) ∧
    session_manager (ec w') = sman' ∧
    storage w' = s'.
Proof.
  intros Hload. rewrite load_session_run, Hload. simpl.
  destruct (truthy (default PNone (dict_get "client_id" data)));
    eexists; (split; [reflexivity|done]).
Qed.
End LoadSession.

Lemma load_session_client_id_witness :
  ∃ w',
    _load_session (toy_env (with_data [("client_id", PStr "c1")] happy_script))
      (PDict []) (toy_endpoint "userinfo" false) (PDict []) c0_world =
    (Raise (mkExn NameError "name 'sdata' is not defined"), w') ∧
    cdb (ec w') = cdb (ec c0_world) ∧
    session_manager (ec w') = {| db := storage c0_world |} ∧
    storage w' = storage c0_world.
Proof.
  exact (load_session_client_id
           (toy_env (with_data [("client_id", PStr "c1")] happy_script))
           (PDict []) (toy_endpoint "userinfo" false) (PDict []) c0_world
           [("client_id", PStr "c1")] {| db := storage c0_world |}
           (storage c0_world) eq_refl).
Defined.

(** The claim as stated fails: session data with a "client_id" key whose
    value is the empty string does not make [_load_session] raise. *)
Lemma load_session_empty_client_id_returns :
  dict_get "client_id" [("client_id", PStr "")] = Some (PStr "") ∧
  (storage_load_session_from_db
     (toy_env (with_data [("client_id", PStr "")] happy_script))
     (PDict []) (PDict []) {| db := [] |} (storage c0_world)).1 =
    Ret [("client_id", PStr "")] ∧
  (_load_session (toy_env (with_data [("client_id", PStr "")] happy_script))
     (PDict []) (toy_endpoint "userinfo" false) (PDict []) c0_world).1 =
    Ret tt.
Proof. repeat split. Qed.

(** ** Processing a request *)

Section ProcessRequest.
Context {Storage : Type} (E : Env Storage).
Implicit Types w : World Storage.

Lemma process_request_build_error endpoint context parse_req http_headers w e :
  request_for E endpoint parse_req = Raise e →
  _process_request E endpoint context parse_req http_headers w =
  if is_Exception e
  then (Ret (error_response "invalid_request" e), flush_world w)
  else (Raise e, w).
Proof.
  unfold _process_request. intros ->.
  destruct (is_Exception e); reflexivity.
Qed.

Lemma process_request_raised endpoint context parse_req http_headers w
    _req e w' :
  request_for E endpoint parse_req = Ret _req →
  extern E (process_request endpoint _req http_headers) w = (Raise e, w') →
  _process_request E endpoint context parse_req http_headers w =
  if is_client_error e
  then (Ret (error_response "unauthorized_client" e), flush_world w')
  else if is_Exception e
  then (Ret (error_response "invalid_request" e), flush_world w')
  else (Raise e, w').
Proof.
  unfold _process_request. intros -> Hp.
  unfold try_except, call. rewrite Hp.
  destruct (is_client_error e); [reflexivity|].
  destruct (is_Exception e); reflexivity.
Qed.

Lemma process_request_returned endpoint context parse_req http_headers w
    _req r w' :
  request_for E endpoint parse_req = Ret _req →
  extern E (process_request endpoint _req http_headers) w = (Ret r, w') →
  _process_request E endpoint context parse_req http_headers w = (Ret r, w').
Proof.
  unfold _process_request. intros -> Hp.
  unfold try_except, call. rewrite Hp. reflexivity.
Qed.

(** C3 (as amended): no exception of class [Exception] raised while the
    request is built or processed leaves [_process_request]: each is
    returned as a JSON response with status 400 whose body carries [error]
    and [error_description]. [handle_error], the answer to a failure of
    [authz_part2], returns a JSON response with the status it was given
    whose body is the plain message text, without those two fields. *)
Theorem errors_reported endpoint context parse_req http_headers w :
  (∀ e w', _process_request E endpoint context parse_req http_headers w =
             (Raise e, w') → is_Exception e = false) ∧
  (∀ e w1, is_Exception e = true →
           request_for E endpoint parse_req = Raise e ∧ w1 = w ∨
           (∃ _req, request_for E endpoint parse_req = Ret _req ∧
                    extern E (process_request endpoint _req http_headers) w =
                      (Raise e, w1)) →
           ∃ r, _process_request E endpoint context parse_req http_headers w =
                  (Ret r, flush_world w1) ∧
                has_error_fields r = true ∧
                response_status r = Some "400") ∧
  (∀ msg excp status,
     ∃ text, handle_error msg excp status w =
               (Ret (PJsonResponse (PStr text) (Some status)), flush_world w) ∧
             has_error_fields (PJsonResponse (PStr text) (Some status)) = false ∧
             (msg = None →
              text = "Something went wrong ... " ++ from_option exn_str "" excp)).
Proof.
  split; [|split].
  - intros e w'. destruct (request_for E endpoint parse_req) as [_req|e0] eqn:Hreq.
    + destruct (extern E (process_request endpoint _req http_headers) w)
        as [[r|e1] w1] eqn:Hp.
      * rewrite (process_request_returned _ _ _ _ _ _ _ _ Hreq Hp).
        discriminate.
      * rewrite (process_request_raised _ _ _ _ _ _ _ _ Hreq Hp).
        destruct (is_client_error e1); [discriminate|].
        destruct (is_Exception e1) eqn:He1; [discriminate|].
        by intros [= <- <-].
    + rewrite (process_request_build_error _ _ _ _ _ _ Hreq).
      destruct (is_Exception e0) eqn:He0; [discriminate|].
      by intros [= <- <-].
  - intros e w1 He [[Hreq ->]|(_req & Hreq & Hp)].
    + rewrite (process_request_build_error _ _ _ _ _ _ Hreq), He.
      eexists. split; [reflexivity|]. done.
    + rewrite (process_request_raised _ _ _ _ _ _ _ _ Hreq Hp), He.
      destruct (is_client_error e); eexists; (split; [reflexivity|done]).
  - intros msg excp status. rewrite handle_error_run.
    eexists. split; [reflexivity|]. split; [reflexivity|].
    by intros ->.
Qed.
End ProcessRequest.

(** ** The endpoints *)

Create HintDb returns.
#[local] Hint Resolve returns_send_response returns_raise : returns.

(** Go past the next [n] statements of a method body. *)
Tactic Notation "past" integer(n) := do n (apply returns_bind; intros ?).

Section EndpointFacts.
Context {Storage : Type} (E : Env Storage).
Implicit Types w : World Storage.

Lemma token_endpoint_flushed context :
  returns (token_endpoint E context) (fun _ w => flushed w).
Proof.
  unfold token_endpoint. past 5.
  destruct (isinstance_JsonResponse _); [auto with returns|].
  past 2. auto with returns.
Qed.

Lemma userinfo_endpoint_flushed context :
  returns (userinfo_endpoint E context) (fun _ w => flushed w).
Proof.
  unfold userinfo_endpoint. past 6.
  destruct (isinstance_JsonResponse _); [auto with returns|].
  past 2. auto with returns.
Qed.

Lemma handle_authn_response_flushed context internal_resp :
  returns (handle_authn_response E context internal_resp)
    (fun _ w => flushed w).
Proof.
  unfold handle_authn_response. past 1.
  destruct (py_items _); [|auto with returns].
  past 1.
  destruct (state context !! frontend_name E); [|auto with returns].
  past 1.
  eapply returns_bind_ret; [apply returns_send_response | auto].
Qed.

(** The authorization endpoint flushes before each response it builds
    itself; what it returns otherwise is the answer of
    [auth_req_callback_func], passed on as it is. *)
Lemma authorization_endpoint_flushed_or_handed_over context :
  returns (authorization_endpoint E context)
    (fun r w' =>
       flushed w' ∨
       ∃ context' internal_req w0,
         isinstance_InternalData internal_req = true ∧
         extern E (auth_req_callback_func context' internal_req) w0 =
           (Ret r, w')).
Proof.
  unfold authorization_endpoint. apply returns_bind; intros _.
  apply returns_bind; intros [internal_req context'].
  destruct (isinstance_InternalData internal_req) eqn:Hi; simpl.
  - intros w r w' H. right. by eexists _, _, _.
  - eapply returns_weaken; [apply returns_send_response|]. by left.
Qed.

Lemma userinfo_endpoint_fresh context sm w :
  userinfo_endpoint E context (with_session_manager sm w) =
  userinfo_endpoint E context w.
Proof.
  unfold userinfo_endpoint. rewrite !bind_run.
  by rewrite load_session_fresh.
Qed.

Lemma token_endpoint_fresh context sm w :
  (token_endpoint E context (with_session_manager sm w)).1 =
  (token_endpoint E context w).1.
Proof.
  unfold token_endpoint. rewrite !bind_run. unfold call_pure, lift.
  destruct (pure E (from_urlencoded AccessTokenRequest (request context)))
    as [raw|e]; [|reflexivity].
  rewrite !bind_run, load_cdb_with_session_manager.
  destruct (_load_cdb E context None w) as [[c|e] w1]; simpl; [|reflexivity].
  rewrite !bind_run. by rewrite load_session_fresh.
Qed.

(** C2 (as amended): [_load_session] flushes the in-memory session manager
    before it loads from the storage, so that what the token and userinfo
    endpoints answer does not depend on sessions left in memory; the token
    endpoint, the userinfo endpoint and [handle_authn_response] leave the
    session manager flushed whenever they return a response; the
    authorization endpoint does so for the responses it builds itself, and
    otherwise returns what [auth_req_callback_func] answered. *)
Theorem sessions_loaded_fresh_and_flushed (context : ExtendedContext) :
  (∀ parse_req endpoint http_headers sm w,
     _load_session E parse_req endpoint http_headers
       (with_session_manager sm w) =
     _load_session E parse_req endpoint http_headers w) ∧
  (∀ sm w, (token_endpoint E context (with_session_manager sm w)).1 =
           (token_endpoint E context w).1) ∧
  (∀ sm w, userinfo_endpoint E context (with_session_manager sm w) =
           userinfo_endpoint E context w) ∧
  returns (token_endpoint E context) (fun _ w => flushed w) ∧
  returns (userinfo_endpoint E context) (fun _ w => flushed w) ∧
  (∀ internal_resp,
     returns (handle_authn_response E context internal_resp)
       (fun _ w => flushed w)) ∧
  returns (authorization_endpoint E context)
    (fun r w' =>
       flushed w' ∨
       ∃ context' internal_req w0,
         isinstance_InternalData internal_req = true ∧
         extern E (auth_req_callback_func context' internal_req) w0 =
           (Ret r, w')).
Proof.
  split; [|split; [|split; [|split; [|split; [|split]]]]].
  - intros. apply load_session_fresh.
  - apply token_endpoint_fresh.
  - apply userinfo_endpoint_fresh.
  - apply token_endpoint_flushed.
  - apply userinfo_endpoint_flushed.
  - apply handle_authn_response_flushed.
  - apply authorization_endpoint_flushed_or_handed_over.
Qed.

(** An error response of [_process_request] is what the token endpoint
    returns. *)
Lemma token_endpoint_relays context w raw c w1 w2 parse_req w3 r w4 :
  pure E (from_urlencoded AccessTokenRequest (request context)) = Ret raw →
  _load_cdb E context None w = (Ret c, w1) →
  _load_session E raw (endpoint_token E) (PDict (_get_http_headers context)) w1
    = (Ret tt, w2) →
  _parse_request E (endpoint_token E) context (_get_http_headers context) w2
    = (Ret parse_req, w3) →
  _process_request E (endpoint_token E) context parse_req
    (PDict (_get_http_headers context)) w3 = (Ret r, w4) →
  isinstance_JsonResponse r = true →
  token_endpoint E context w = (Ret r, flush_world w4).
Proof.
  intros Hraw Hcdb Hload Hparse Hproc Hjson.
  unfold token_endpoint. rewrite bind_run. unfold call_pure, lift.
  rewrite Hraw, bind_run, Hcdb, bind_run, Hload, bind_run, Hparse, bind_run,
    Hproc, Hjson.
  apply send_response_run.
Qed.

Lemma flush_world_idem w : flush_world (flush_world w) = flush_world w.
Proof. reflexivity. Qed.

(** A token request that reaches [endpoint.process_request] and fails there
    with one of the three client exceptions: the token endpoint returns the
    400 response with [error] "unauthorized_client". *)
Lemma token_endpoint_client_error context w raw c w1 w2 parse_req w3 _req e w4 :
  pure E (from_urlencoded AccessTokenRequest (request context)) = Ret raw →
  _load_cdb E context None w = (Ret c, w1) →
  _load_session E raw (endpoint_token E) (PDict (_get_http_headers context)) w1
    = (Ret tt, w2) →
  _parse_request E (endpoint_token E) context (_get_http_headers context) w2
    = (Ret parse_req, w3) →
  request_for E (endpoint_token E) parse_req = Ret _req →
  extern E (process_request (endpoint_token E) _req
              (PDict (_get_http_headers context))) w3 = (Raise e, w4) →
  is_client_error e = true →
  token_endpoint E context w =
    (Ret (error_response "unauthorized_client" e), flush_world w4).
Proof.
  intros Hraw Hcdb Hload Hparse Hreq Hp He.
  rewrite <- flush_world_idem.
  eapply token_endpoint_relays; eauto.
  rewrite (process_request_raised _ _ _ _ _ _ _ _ _ Hreq Hp), He. reflexivity.
Qed.

(** A token request from which no [AccessTokenRequest] can be built: the
    token endpoint returns the 400 response with [error]
    "invalid_request". *)
Lemma token_endpoint_build_error context w raw c w1 w2 parse_req w3 e :
  pure E (from_urlencoded AccessTokenRequest (request context)) = Ret raw →
  _load_cdb E context None w = (Ret c, w1) →
  _load_session E raw (endpoint_token E) (PDict (_get_http_headers context)) w1
    = (Ret tt, w2) →
  _parse_request E (endpoint_token E) context (_get_http_headers context) w2
    = (Ret parse_req, w3) →
  request_for E (endpoint_token E) parse_req = Raise e →
  is_Exception e = true →
  token_endpoint E context w =
    (Ret (error_response "invalid_request" e), flush_world w3).
Proof.
  intros Hraw Hcdb Hload Hparse Hreq He.
  rewrite <- flush_world_idem.
  eapply token_endpoint_relays; eauto.
  rewrite (process_request_build_error _ _ _ _ _ _ _ Hreq), He. reflexivity.
Qed.

(** A failure of [authz_part2] is what [_handle_backend_response] answers
    through [handle_error]: status 403 and the plain message as body. *)
Lemma handle_backend_response_authz_part2_error context internal_resp w
    st oidc_req cid c w1 parse_req w2 proc_req w3 client_id ev w4 rules w5
    sid w6 e w7 :
  let endpoint := endpoint_authorization E in
  let http_headers := PDict (_get_http_headers context) in
  let sub := default PNone (dict_get "subject_id" internal_resp) in
  state context !! frontend_name E = Some st →
  dict_get "oidc_request" st = Some oidc_req →
  dict_get "client_id" oidc_req = Some cid →
  _load_cdb E context (Some cid) w = (Ret c, w1) →
  pure E (from_urlencoded AuthorizationRequest oidc_req) = Ret parse_req →
  _load_session E parse_req endpoint http_headers w1 = (Ret tt, w2) →
  _process_request E endpoint context parse_req http_headers w2
    = (Ret proc_req, w3) →
  isinstance_JsonResponse proc_req = false →
  py_getitem parse_req "client_id" = Ret client_id →
  extern E (create_authn_event sub) w3 = (Ret ev, w4) →
  extern E (get_method_by_id "user") w4 = (Ret rules, w5) →
  extern E (create_session ev parse_req sub client_id rules) w5
    = (Ret sid, w6) →
  extern E (authz_part2 endpoint sub sid parse_req ev) w6 = (Raise e, w7) →
  is_Exception e = true →
  _handle_backend_response E context internal_resp w =
    (Ret (PJsonResponse (PStr ("Something went wrong ... " ++ exn_str e))
            (Some "403")),
     flush_world w7).
Proof.
  intros endpoint http_headers sub Hst Hreq Hcid Hcdb Hparse Hload Hproc Hjson
    Hget Hev Hrules Hsid Hauthz He.
  unfold _handle_backend_response. rewrite Hst, Hreq, Hcid.
  rewrite bind_run, Hcdb, bind_run. unfold call_pure, lift at 1.
  rewrite Hparse, bind_run.
  fold endpoint. fold http_headers. rewrite Hload, bind_run, Hproc, Hjson.
  rewrite bind_run. unfold lift at 1. rewrite Hget.
  fold sub. unfold call.
  rewrite bind_run, Hev, bind_run, Hrules, bind_run, Hsid.
  unfold try_else. rewrite Hauthz, He. apply handle_error_run.
Qed.
End EndpointFacts.

(** ** Runs against the scripted environment *)

(** The claim as stated fails (C2): a successful authorization request is
    answered with the backend's redirect while the sessions loaded for it
    are still in the session manager. *)
Lemma authorization_endpoint_returns_unflushed :
  (authorization_endpoint (toy_env happy_script) c1_context c0_world).1 =
    Ret (PSeeOther (PStr "https://idp/sso")) ∧
  db (session_manager
        (ec (authorization_endpoint (toy_env happy_script) c1_context
               c0_world).2)) =
    [("sid0", ("oidcop.session.info.ClientSessionInfo", PDict []));
     ("sid1", ("oidcop.session.grant.Grant", PDict []))] ∧
  ¬ flushed (authorization_endpoint (toy_env happy_script) c1_context
               c0_world).2.
Proof.
  split; [vm_compute; reflexivity|]. split; [vm_compute; reflexivity|].
  unfold flushed. vm_compute. discriminate.
Qed.

(** The token and userinfo endpoints answer and leave nothing in memory. *)
Example token_endpoint_run :
  (token_endpoint (toy_env happy_script) c1_context c0_world).1 =
    Ret (PJsonResponse (PDict []) None) ∧
  db (session_manager
        (ec (token_endpoint (toy_env happy_script) c1_context c0_world).2))
    = [].
Proof. split; vm_compute; reflexivity. Qed.

Example userinfo_endpoint_run :
  (userinfo_endpoint (toy_env happy_script) c1_context c0_world).1 =
    Ret (PJsonResponse (PDict []) None) ∧
  db (session_manager
        (ec (userinfo_endpoint (toy_env happy_script) c1_context c0_world).2))
    = [].
Proof. split; vm_compute; reflexivity. Qed.

(** The claim as stated fails (C3): a failure of [authz_part2] is answered
    with status 403 and a body that is a plain string, with neither an
    [error] nor an [error_description] field. *)
Lemma authz_part2_error_has_no_error_fields :
  (handle_authn_response
     (toy_env (with_authz_part2 (Raise (mkExn ValueError "boom")) happy_script))
     c1_backend_context u1_response c0_world).1 =
    Ret (PJsonResponse (PStr "Something went wrong ... boom") (Some "403"),
         forget_request (toy_env happy_script) c1_backend_context) ∧
  has_error_fields
    (PJsonResponse (PStr "Something went wrong ... boom") (Some "403")) = false.
Proof. split; vm_compute; reflexivity. Qed.

(** A failure of [do_response] in [_handle_authn_request] is passed to
    [handle_error], whose response is dropped: the method goes on and
    returns the internal request, and the authorization endpoint redirects
    to the backend. *)
Example do_response_error_is_dropped :
  (authorization_endpoint
     (toy_env (with_do_response (Raise (mkExn ValueError "bad")) happy_script))
     c1_context c0_world).1 = Ret (PSeeOther (PStr "https://idp/sso")) ∧
  (handle_authn_response
     (toy_env (with_authz_part2 (Raise (mkExn ValueError "bad")) happy_script))
     c1_backend_context u1_response c0_world).1 =
    Ret (PJsonResponse (PStr "Something went wrong ... bad") (Some "403"),
         forget_request (toy_env happy_script) c1_backend_context).
Proof. split; vm_compute; reflexivity. Qed.

(** A token request of an unknown client, end to end. *)
Example token_endpoint_unknown_client :
  (token_endpoint
     (toy_env (with_process (Raise (mkExn UnknownClient "unknown client c1"))
                 happy_script))
     c1_context c0_world).1 =
  Ret (PJsonResponse
         (PDict [("error", PStr "unauthorized_client");
                 ("error_description", PStr "unknown client c1")])
         (Some "400")).
Proof. vm_compute. reflexivity. Qed.

(** The [NameError] of [_load_session] is caught nowhere: the userinfo
    endpoint ends with it. *)
Example userinfo_endpoint_name_error :
  (userinfo_endpoint
     (toy_env (with_data [("client_id", PStr "c1")] happy_script))
     c1_context c0_world).1 =
  Raise (mkExn NameError "name 'sdata' is not defined").
Proof. vm_compute. reflexivity. Qed.

(** A response from the backend, end to end: the client is redirected with
    the authorization response, the request remembered in the context is
    forgotten, and no session stays in memory. *)
Example handle_authn_response_run :
  (handle_authn_response (toy_env happy_script) c1_backend_context u1_response
     c0_world).1 =
    Ret (PSeeOther (PStr "https://rp/cb?code=abc"),
         forget_request (toy_env happy_script) c1_backend_context) ∧
  db (session_manager
        (ec (handle_authn_response (toy_env happy_script) c1_backend_context
               u1_response c0_world).2)) = [].
Proof. split; vm_compute; reflexivity. Qed.

(** * Further properties *)

(** ** Dictionaries built from items *)

Section MoreDictFacts.
Context {V : Type}.
Implicit Types (d items : list (string * V)) (k : string) (v : V).

Lemma dict_of_items_from_key k items d :
  k ∈ items.*1 ∨ is_Some (dict_get k d) →
  is_Some (dict_get k (fold_left (fun d kv => dict_set kv.1 kv.2 d) items d)).
Proof.
  revert d. induction items as [|[k0 v0] items IH]; simpl; intros d H.
  - destruct H as [H|H]; [inversion H | done].
  - apply IH. rewrite dict_get_set.
    destruct (String.eqb_spec k k0) as [->|Hne]; [right; eauto|].
    destruct H as [H|H]; [|by right].
    apply elem_of_cons in H as [H|H]; [done | by left].
Qed.

Lemma dict_of_items_is_Some k items :
  is_Some (dict_get k (dict_of_items items)) ↔ k ∈ items.*1.
Proof.
  split.
  - intros [v Hv]. apply dict_of_items_elem in Hv.
    apply list_elem_of_fmap. by exists (k, v).
  - intros H. apply dict_of_items_from_key. by left.
Qed.

Lemma dict_set_fresh k v d :
  k ∉ d.*1 → dict_set k v d = (d ++ [(k, v)])%list.
Proof.
  induction d as [|[k0 v0] d IH]; simpl; intros Hk; [done|].
  destruct (String.eqb_spec k k0) as [->|Hne].
  - exfalso. apply Hk, list_elem_of_here.
  - f_equal. apply IH. intros Hin. apply Hk. by apply list_elem_of_further.
Qed.

(** A list of items with distinct keys is the dict it builds. *)
Lemma dict_of_items_NoDup_id items :
  NoDup items.*1 → dict_of_items items = items.
Proof.
  unfold dict_of_items.
  assert (H : ∀ d, NoDup ((d ++ items)%list).*1 →
    fold_left (fun d kv => dict_set kv.1 kv.2 d) items d = (d ++ items)%list).
  { induction items as [|[k v] items IH]; simpl; intros d Hd.
    - by rewrite app_nil_r.
    - rewrite IH.
      + rewrite dict_set_fresh; [by rewrite <- app_assoc|].
        rewrite fmap_app in Hd. apply NoDup_app in Hd as (_ & Hd & _).
        intros Hin. apply (Hd k Hin). simpl. apply list_elem_of_here.
      + rewrite dict_set_fresh; [by rewrite <- app_assoc|].
        rewrite fmap_app in Hd. apply NoDup_app in Hd as (_ & Hd & _).
        intros Hin. apply (Hd k Hin). simpl. apply list_elem_of_here. }
  intros Hnd. by apply (H []).
Qed.
End MoreDictFacts.

(** ** Request headers without an authorization value *)

Lemma existsb_eqb_elem (k : string) (l : list string) :
  existsb (String.eqb k) l = true ↔ k ∈ l.
Proof.
  induction l as [|x l IH]; simpl.
  - split; [discriminate | inversion 1].
  - rewrite elem_of_cons, orb_true_iff, IH.
    destruct (String.eqb_spec k x); intuition congruence.
Qed.

Lemma not_ignored_spec (k : string) :
  Is_true (negb (existsb (String.eqb k) IGNORED_HEADERS)) ↔
  k ∉ IGNORED_HEADERS.
Proof.
  rewrite <- existsb_eqb_elem.
  destruct (existsb (String.eqb k) IGNORED_HEADERS); simpl.
  - split; [done | intros H; by destruct H].
  - split; [discriminate | done].
Qed.

(** In the dict comprehension the last header passed on under a name
    wins. *)
Lemma headers_fold_last (name : string) (h : list (string * string))
    (d : list (string * PyVal)) :
  dict_get name
    (fold_left (fun d kv => dict_set kv.1 kv.2 d)
       (map (fun kv => (lower kv.1, PStr kv.2))
          (filter (fun kv => negb (existsb (String.eqb kv.1) IGNORED_HEADERS))
             h)) d) =
  match last (passed_on_as name h) with
  | Some kv => Some (PStr kv.2)
  | None => dict_get name d
  end.
Proof.
  revert d. induction h as [|[k v] h IH]; intros d; [reflexivity|].
  unfold passed_on_as in *. rewrite !filter_cons.
  change ((k, v).1) with k.
  destruct (decide (Is_true (negb (existsb (String.eqb k) IGNORED_HEADERS))))
    as [Hp|Hp].
  - change (map ?f (?x :: ?l)) with (f x :: map f l).
    change (fold_left ?f (?x :: ?l) ?a) with (fold_left f l (f a x)).
    rewrite IH. change ((k, v).1) with k. change ((k, v).2) with v.
    change ((lower k, PStr v).1) with (lower k).
    change ((lower k, PStr v).2) with (PStr v).
    rewrite dict_get_set.
    destruct (decide ((k ∉ IGNORED_HEADERS) ∧ lower k = name)) as [[_ <-]|Hn].
    + rewrite last_cons, String.eqb_refl.
      by destruct (last (filter _ h)).
    + destruct (String.eqb_spec name (lower k)) as [->|Hne]; [|done].
      exfalso. apply Hn. split; [by apply not_ignored_spec | done].
  - destruct (decide ((k ∉ IGNORED_HEADERS) ∧ lower k = name)) as [[Hk _]|Hn].
    + exfalso. by apply Hp, not_ignored_spec.
    + apply IH.
Qed.

(** Without an authorization value and with request headers present,
    [_get_http_headers] passes on, next to the method and the url, exactly
    the headers whose name, as the request spells it, is not in
    [IGNORED_HEADERS]: each under its lower-cased name and with its value,
    the last one winning where several are passed on under one name. The
    ignore list is compared before lower-casing: a header spelled "Cookie"
    is passed on as "cookie". Header names are ASCII. *)
Theorem get_http_headers_keys (context : ExtendedContext)
    (h : list (string * string)) :
  http_headers context = Some h →
  h ≠ [] →
  opt_truthy str_empty (request_authorization context) = false →
  Forall (fun kv => is_ascii kv.1 = true) h →
  ∃ headers,
    _get_http_headers context =
      [("headers", PDict headers);
       ("method", PStr (request_method context));
       ("url", PStr (request_uri context))] ∧
    (∀ name, is_Some (dict_get name headers) ↔
             ∃ k v, (k, v) ∈ h ∧ (k ∉ IGNORED_HEADERS) ∧ lower k = name) ∧
    (∀ name, dict_get name headers =
             (fun kv => PStr kv.2) <$> last (passed_on_as name h)).
Proof.
  intros Hh Hne Hauth _. unfold _get_http_headers. rewrite Hh.
  change (opt_truthy (fun s => String.eqb s "") (request_authorization context))
    with (opt_truthy str_empty (request_authorization context)).
  rewrite Hauth. destruct h as [|x h]; [done|]. simpl opt_truthy. cbv iota.
  eexists. split; [reflexivity|]. simpl default.
  set (l := x :: h). clearbody l. unfold headers_comprehension.
  assert (Hlast : ∀ name,
    dict_get name
      (dict_of_items
         (map (fun kv => (lower kv.1, PStr kv.2))
            (filter (fun kv => negb (existsb (String.eqb kv.1) IGNORED_HEADERS))
               l))) =
    (fun kv => PStr kv.2) <$> last (passed_on_as name l)).
  { intros name. unfold dict_of_items. rewrite headers_fold_last.
    by destruct (last (passed_on_as name l)). }
  split; [|exact Hlast].
  intros name. rewrite Hlast, fmap_is_Some. unfold passed_on_as. split.
  - intros [[k v] Hkv]. apply last_Some_elem_of in Hkv.
    apply list_elem_of_filter in Hkv as [[Hk Hlow] Hin]. by exists k, v.
  - intros (k & v & Hin & Hk & Hlow).
    destruct (last (filter (fun kv => (kv.1 ∉ IGNORED_HEADERS) ∧ lower kv.1 = name)
                      l)) as [kv|] eqn:Hl; [eauto|].
    apply last_None in Hl.
    assert (Hin' : (k, v) ∈ filter
              (fun kv => (kv.1 ∉ IGNORED_HEADERS) ∧ lower kv.1 = name) l)
      by (apply list_elem_of_filter; done).
    rewrite Hl in Hin'. inversion Hin'.
Qed.

Lemma get_http_headers_keys_witness :
  ∃ headers,
    _get_http_headers
      {| request := [];
         http_headers := Some [("Cookie", "a=b"); ("cookie", "c=d");
                               ("Accept", "*/*"); ("ACCEPT", "text/html")];
         request_method := "GET"; request_uri := "/";
         request_authorization := None;
         state := ∅; target_backend := PNone; internal_data := PNone |} =
      [("headers", PDict headers); ("method", PStr "GET"); ("url", PStr "/")] ∧
    dict_get "cookie" headers = Some (PStr "a=b") ∧
    dict_get "accept" headers = Some (PStr "text/html").
Proof.
  destruct (get_http_headers_keys
              {| request := [];
                 http_headers := Some [("Cookie", "a=b"); ("cookie", "c=d");
                                       ("Accept", "*/*");
                                       ("ACCEPT", "text/html")];
                 request_method := "GET"; request_uri := "/";
                 request_authorization := None;
                 state := ∅; target_backend := PNone; internal_data := PNone |}
              [("Cookie", "a=b"); ("cookie", "c=d"); ("Accept", "*/*");
               ("ACCEPT", "text/html")]
              eq_refl ltac:(discriminate) eq_refl
              ltac:(repeat constructor))
    as (headers & Heq & _ & Hval).
  exists headers. split; [exact Heq|].
  rewrite !Hval. split; reflexivity.
Defined.

(** ** Released claims: what is kept *)

Lemma filter_unset_claims_NoDup (_claims : list (string * PyVal)) :
  NoDup _claims.*1 →
  filter_unset_claims _claims = filter (fun kv => truthy kv.2) _claims.
Proof.
  intros Hnd. unfold filter_unset_claims. apply dict_of_items_NoDup_id.
  eapply sublist_NoDup; [exact Hnd|]. apply fmap_sublist, sublist_filter.
Qed.

(** C6 (as amended): the filter of [handle_authn_response] is the truth
    test of the value itself. The claims it keeps all have a true value
    (never [None], never an empty string, list or dict); a claim whose value
    is false is in neither the filtered nor the combined claim set; and
    every claim whose value is true is kept as it is, whatever the value
    holds: a list of empty values is kept. [combine_claim_values] is not in
    the source tree: it is a parameter, assumed only to return items under
    names it was given. *)
Theorem unset_claims_omitted {Storage : Type} (E : Env Storage)
    (_claims : list (string * PyVal)) :
  NoDup _claims.*1 →
  (∀ items k, k ∈ (combine_claim_values E items).*1 → k ∈ items.*1) →
  (∀ k v, dict_get k (filter_unset_claims _claims) = Some v →
          truthy v = true ∧ dict_get k _claims = Some v) ∧
  (∀ k v, dict_get k _claims = Some v → truthy v = false →
          dict_get k (filter_unset_claims _claims) = None ∧
          dict_get k (combined_claims E _claims) = None) ∧
  (∀ k v, dict_get k _claims = Some v → truthy v = true →
          dict_get k (filter_unset_claims _claims) = Some v).
Proof.
  intros Hnd Hcomb. split; [|split].
  - intros k v H. apply filter_unset_claims_elem in H as [Ht Hin].
    split; [done|]. by apply dict_get_NoDup.
  - intros k v Hget Hf.
    assert (Hnone : dict_get k (filter_unset_claims _claims) = None).
    { destruct (dict_get k (filter_unset_claims _claims)) as [v'|] eqn:H;
        [|done].
      apply filter_unset_claims_elem in H as [Ht Hin].
      apply (dict_get_NoDup _ _ _ Hnd) in Hin. congruence. }
    split; [done|]. unfold combined_claims. apply dict_of_items_keys.
    intros Hin. apply Hcomb in Hin.
    apply list_elem_of_fmap in Hin as [[k' v'] [-> Hin]]. simpl in Hnone.
    apply (dict_get_NoDup k' v') in Hin; [congruence|].
    apply dict_of_items_NoDup.
  - intros k v Hget Ht. rewrite (filter_unset_claims_NoDup _ Hnd).
    apply dict_get_NoDup.
    + eapply sublist_NoDup; [exact Hnd|]. apply fmap_sublist, sublist_filter.
    + apply list_elem_of_filter. split; [simpl; by rewrite Ht|].
      by apply dict_get_elem.
Qed.

Lemma unset_claims_omitted_witness :
  dict_get "mail"
    (combined_claims (toy_env happy_script)
       [("sub", PList [PStr "u1"]); ("mail", PList []); ("name", PNone)])
  = None ∧
  dict_get "sub"
    (filter_unset_claims
       [("sub", PList [PStr "u1"]); ("mail", PList []); ("name", PNone)])
  = Some (PList [PStr "u1"]).
Proof.
  destruct (unset_claims_omitted (toy_env happy_script)
    [("sub", PList [PStr "u1"]); ("mail", PList []); ("name", PNone)])
    as (_ & Hfalse & Htrue).
  - apply (bool_decide_unpack (NoDup _)). vm_compute. exact I.
  - intros items k. simpl. unfold toy_combine.
    rewrite <- list_fmap_compose. intros H.
    apply list_elem_of_fmap in H as [kv [-> H]].
    apply list_elem_of_fmap. by exists kv.
  - split.
    + exact (proj2 (Hfalse "mail" (PList []) eq_refl eq_refl)).
    + exact (Htrue "sub" (PList [PStr "u1"]) eq_refl eq_refl).
Defined.

(** The claim as stated fails (C6): a claim whose value is a list holding
    only an empty string, or only [None], is true; the filter keeps it, and
    with values combined to their single element it is released as the empty
    string or as [None]. *)
Lemma empty_values_released :
  filter_unset_claims
    [("sub", PList [PStr ""]); ("name", PList [PNone]); ("mail", PList [])] =
    [("sub", PList [PStr ""]); ("name", PList [PNone])] ∧
  combined_claims (toy_env happy_script)
    [("sub", PList [PStr ""]); ("name", PList [PNone]); ("mail", PList [])] =
    [("sub", PStr ""); ("name", PNone)] ∧
  truthy (PStr "") = false ∧ truthy PNone = false.
Proof. repeat split; reflexivity. Qed.

(** Filtering the unset claims loses nothing else: a claim with a true
    value is kept under its name with its value, and the claims kept stay in
    the order they had. *)
Theorem set_claims_kept (_claims : list (string * PyVal)) :
  NoDup _claims.*1 →
  (∀ k v, dict_get k _claims = Some v → truthy v = true →
          dict_get k (filter_unset_claims _claims) = Some v) ∧
  filter_unset_claims _claims `sublist_of` _claims ∧
  filter_unset_claims (filter_unset_claims _claims) =
    filter_unset_claims _claims.
Proof.
  intros Hnd. rewrite (filter_unset_claims_NoDup _ Hnd).
  assert (Hnd' : NoDup (filter (fun kv => truthy kv.2) _claims).*1).
  { eapply sublist_NoDup; [exact Hnd|]. apply fmap_sublist, sublist_filter. }
  split; [|split].
  - intros k v Hget Ht. apply dict_get_NoDup; [done|].
    apply list_elem_of_filter. split; [simpl; by rewrite Ht|].
    by apply dict_get_elem.
  - apply sublist_filter.
  - rewrite (filter_unset_claims_NoDup _ Hnd').
    apply list_filter_filter_l. auto.
Qed.

Lemma set_claims_kept_witness :
  dict_get "sub"
    (filter_unset_claims [("mail", PList []); ("sub", PList [PStr "u1"])]) =
  Some (PList [PStr "u1"]).
Proof.
  refine (proj1 (set_claims_kept
                   [("mail", PList []); ("sub", PList [PStr "u1"])] _)
            "sub" (PList [PStr "u1"]) eq_refl eq_refl).
  apply (bool_decide_unpack (NoDup _)). vm_compute. exact I.
Defined.

(** ** Client lookups one after the other *)

Section MoreLoadCdb.
Context {Storage : Type} (E : Env Storage).
Implicit Types w : World Storage.

Lemma load_cdb_run context client_id w :
  _load_cdb E context client_id w =
  match looked_up context client_id with
  | Some c =>
      if str_empty c then
        (Raise (mkExn InvalidClient ("Client " ++ c ++ " not found!")),
         with_cdb ∅ w)
      else
        match storage_get_client_by_id E c (storage w) with
        | Ret client => (Ret client, with_cdb {[ c := client ]} w)
        | Raise e => (Raise e, w)
        end
  | None =>
      (Raise (mkExn InvalidClient "Client None not found!"), with_cdb ∅ w)
  end.
Proof.
  unfold _load_cdb, looked_up.
  destruct (str_or client_id (dict_get "client_id" (request context)))
    as [c|]; [destruct (str_empty c)|]; reflexivity.
Qed.

Lemma load_cdb_again context client_id w c w1 :
  _load_cdb E context client_id w = (Ret c, w1) →
  _load_cdb E context client_id w1 = (Ret c, w1).
Proof.
  rewrite !load_cdb_run.
  destruct (looked_up context client_id) as [cid|]; [|discriminate].
  destruct (str_empty cid); [discriminate|].
  destruct (storage_get_client_by_id E cid (storage w)) as [client|e] eqn:Hs;
    [|discriminate].
  intros [= <- <-]. simpl. rewrite Hs. reflexivity.
Qed.

(** A client id passed to [_load_cdb] takes precedence over the request's:
    with a non-empty argument the request is not looked at, and the lookup
    is the one a request carrying that id would cause; an empty argument
    counts as none. *)
Theorem load_cdb_precedence (context context' : ExtendedContext)
    (cid : string) w :
  cid ≠ "" →
  _load_cdb E context (Some cid) w = _load_cdb E context' (Some cid) w ∧
  (dict_get "client_id" (request context') = Some cid →
   _load_cdb E context' None w = _load_cdb E context (Some cid) w) ∧
  _load_cdb E context (Some "") w = _load_cdb E context None w.
Proof.
  intros Hne.
  assert (Hc : str_empty cid = false)
    by (unfold str_empty; by destruct (String.eqb_spec cid "")).
  rewrite !load_cdb_run. unfold looked_up, str_or. simpl.
  rewrite !Hc. simpl. rewrite ?Hc.
  split; [reflexivity|]. split; [|reflexivity].
  intros ->. simpl. rewrite ?Hc. reflexivity.
Qed.

(** Lookups do not accumulate: what a lookup answers never depends on the
    lookups made before it, and when it returns, the world it leaves is the
    one it would have left without them. *)
Theorem load_cdb_forgets (context1 context2 : ExtendedContext)
    (client_id1 client_id2 : option string) w :
  (_load_cdb E context2 client_id2 (_load_cdb E context1 client_id1 w).2).1 =
    (_load_cdb E context2 client_id2 w).1 ∧
  (∀ client,
     (_load_cdb E context2 client_id2 w).1 = Ret client →
     (_load_cdb E context2 client_id2 (_load_cdb E context1 client_id1 w).2).2 =
       (_load_cdb E context2 client_id2 w).2 ∧
     size (cdb (ec (_load_cdb E context2 client_id2 w).2)) = 1).
Proof.
  assert (Hst : storage (_load_cdb E context1 client_id1 w).2 = storage w).
  { rewrite load_cdb_run. destruct (looked_up context1 client_id1) as [c|];
      [destruct (str_empty c)|]; try reflexivity.
    destruct (storage_get_client_by_id E c (storage w)); reflexivity. }
  assert (Hw : ∀ m, with_cdb m (_load_cdb E context1 client_id1 w).2 =
                    with_cdb m w).
  { intros m. rewrite load_cdb_run.
    destruct (looked_up context1 client_id1) as [c|];
      [destruct (str_empty c)|]; try reflexivity.
    destruct (storage_get_client_by_id E c (storage w)); reflexivity. }
  rewrite (load_cdb_run context2 client_id2 w).
  rewrite (load_cdb_run context2 client_id2 (_load_cdb E context1 client_id1 w).2).
  rewrite Hst.
  destruct (looked_up context2 client_id2) as [c|];
    [destruct (str_empty c)|]; simpl; try (split; [reflexivity|discriminate]).
  destruct (storage_get_client_by_id E c (storage w)) as [client|e]; simpl.
  - split; [reflexivity|]. intros _ _. rewrite Hw. split; [reflexivity|].
    apply map_size_singleton.
  - split; [reflexivity|discriminate].
Qed.
End MoreLoadCdb.

Lemma load_cdb_precedence_witness :
  _load_cdb (toy_env happy_script) (toy_context [("client_id", "c2")])
    (Some "c1") c0_world =
  _load_cdb (toy_env happy_script) c1_context None c0_world.
Proof.
  destruct (load_cdb_precedence (toy_env happy_script)
              (toy_context [("client_id", "c2")]) c1_context "c1" c0_world)
    as (_ & H & _); [discriminate|].
  symmetry. apply H. reflexivity.
Defined.

(** ** The authorization endpoint *)

Section AuthorizationFacts.
Context {Storage : Type} (E : Env Storage).
Implicit Types w : World Storage.

Lemma bind_assoc {A B C'} (m : M Storage A) (f : A → M Storage B)
    (g : B → M Storage C') w :
  bind (bind m f) g w = bind m (fun a => bind (f a) g) w.
Proof. rewrite !bind_run. destruct (m w) as [[a|e] w1]; reflexivity. Qed.

(** [authorization_endpoint] and [handle_authn_request] are the same
    operation: the client lookup the endpoint makes before it hands over to
    [_handle_authn_request], which makes the lookup again, changes
    nothing. *)
Theorem authorization_endpoint_is_handle_authn_request
    (context : ExtendedContext) w :
  authorization_endpoint E context w = handle_authn_request E context w.
Proof.
  unfold authorization_endpoint, handle_authn_request.
  set (K := fun r : PyVal * ExtendedContext =>
              let '(internal_req, context0) := r in
              if negb (isinstance_InternalData internal_req)
              then send_response internal_req
              else call E (auth_req_callback_func context0 internal_req)).
  change (bind (_load_cdb E context None)
            (fun _ => bind (_handle_authn_request E context
                              (endpoint_authorization E)) K) w =
          bind (_handle_authn_request E context (endpoint_authorization E)) K w).
  unfold _handle_authn_request at 2.
  rewrite (bind_assoc (_load_cdb E context None)).
  rewrite (bind_run (_load_cdb E context None)).
  rewrite (bind_run (_load_cdb E context None) _ w).
  destruct (_load_cdb E context None w) as [[c|e] w1] eqn:Hl; [|reflexivity].
  unfold _handle_authn_request. rewrite bind_assoc, bind_run.
  rewrite (load_cdb_again _ _ _ _ _ _ Hl). reflexivity.
Qed.


Lemma returns_ret {A} (a : A) (Q : A → World Storage → Prop) :
  (∀ w, Q a w) → returns (ret a) Q.
Proof. intros HQ w b w' [= <- <-]. apply HQ. Qed.

Lemma handle_authn_response_forgets (context : ExtendedContext)
    internal_resp :
  returns (handle_authn_response E context internal_resp)
    (fun r _ => r.2 = forget_request E context).
Proof.
  unfold handle_authn_response. past 1.
  destruct (py_items _); [|auto with returns].
  past 1.
  destruct (state context !! frontend_name E); [|auto with returns].
  past 2. apply returns_ret. done.
Qed.

(** What [_handle_authn_request] does to the context: when it answers
    with an internal request, that request is recorded as
    [context.internal_data], the target backend is the default one, and the
    OIDC request is remembered in the state under the frontend's name, from
    where [handle_authn_response], run on that context, removes it again;
    when it answers with anything else (an error response), the context is
    as it was. The request and the header fields are never touched. *)
Theorem handle_authn_request_context (context : ExtendedContext)
    (endpoint : Endpoint) :
  returns (_handle_authn_request E context endpoint)
    (fun r _ =>
       request r.2 = request context ∧
       http_headers r.2 = http_headers context ∧
       request_authorization r.2 = request_authorization context ∧
       if isinstance_InternalData r.1 then
         state r.2 =
           <[ frontend_name E := [("oidc_request", request context)] ]>
             (state context) ∧
         target_backend r.2 = default_target_backend E ∧
         internal_data r.2 = r.1 ∧
         (∀ internal_resp w2 r2 w3,
            handle_authn_response E r.2 internal_resp w2 = (Ret r2, w3) →
            state r2.2 = delete (frontend_name E) (state context))
       else r.2 = context).
Proof.
  unfold _handle_authn_request. past 2.
  destruct (isinstance_AuthorizationErrorResponse _).
  - eapply (returns_bind_ret _ _ (fun a _ => isinstance_InternalData a = false)).
    + intros w0 x w1. rewrite send_response_run. by intros [= <- _].
    + intros x w0 Hx. simpl. by rewrite Hx.
  - past 2. destruct (isinstance_JsonResponse _) eqn:Hj.
    + apply returns_ret. intros _. simpl.
      match goal with
      | H : isinstance_JsonResponse ?p = true |- _ => destruct p; try discriminate
      end.
      done.
    + past 6. apply returns_ret. intros _. simpl.
      do 6 (split; [done|]). intros internal_resp w2 r2 w3 Hrun.
      rewrite (handle_authn_response_forgets _ _ _ _ _ Hrun). simpl.
      apply delete_insert_eq.
Qed.

Lemma parse_request_run endpoint (context : ExtendedContext) w :
  _parse_request E endpoint context (_get_http_headers context) w =
  extern E (parse_request endpoint (PDict (str_dict (request context)))
              (PDict (_get_http_headers context))) w.
Proof.
  unfold _parse_request, call.
  destruct (_get_http_headers context) eqn:Hh; simpl; by rewrite ?Hh.
Qed.

(** A request that oidcop parses into an [AuthorizationErrorResponse] is
    answered by the authorization endpoint with the bare dict of that
    message (no response object, no status); the session manager is
    flushed, and no session is loaded and nothing is processed: the world is
    otherwise as the parser left it. *)
Theorem authorization_error_response (context : ExtendedContext) w c w1
    items w2 :
  _load_cdb E context None w = (Ret c, w1) →
  extern E (parse_request (endpoint_authorization E)
              (PDict (str_dict (request context)))
              (PDict (_get_http_headers context))) w1 =
    (Ret (PMessage AuthorizationErrorResponse items), w2) →
  authorization_endpoint E context w = (Ret (PDict items), flush_world w2) ∧
  handle_authn_request E context w = (Ret (PDict items), flush_world w2) ∧
  _handle_authn_request E context (endpoint_authorization E) w =
    (Ret (PDict items, context), flush_world w2).
Proof.
  intros Hl Hp.
  assert (H : ∀ w0, _load_cdb E context None w0 = (Ret c, w1) →
              _handle_authn_request E context (endpoint_authorization E) w0 =
              (Ret (PDict items, context), flush_world w2)).
  { intros w0 Hl0. unfold _handle_authn_request.
    rewrite bind_run, Hl0, bind_run, parse_request_run, Hp. reflexivity. }
  split; [|split; [|by apply H]].
  - unfold authorization_endpoint.
    rewrite bind_run, Hl, bind_run, (H w1 (load_cdb_again _ _ _ _ _ _ Hl)).
    reflexivity.
  - unfold handle_authn_request. rewrite bind_run, (H w Hl). reflexivity.
Qed.
End AuthorizationFacts.


Lemma handle_authn_request_context_witness :
  state (set_target (remember_request (toy_env happy_script) c1_context)
           (PStr "saml2")
           (PInternalData
              [("subject_type", PStr "pairwise"); ("requester", PStr "c1");
               ("requester_name",
                PList [PDict [("lang", PStr "en"); ("text", PStr "RP")]]);
               ("attributes", PList [])])) =
    <[ "OIDC" := [("oidc_request", [("client_id", "c1")])] ]>
      (state c1_context) ∧
  target_backend
    (set_target (remember_request (toy_env happy_script) c1_context)
       (PStr "saml2")
       (PInternalData
          [("subject_type", PStr "pairwise"); ("requester", PStr "c1");
           ("requester_name",
            PList [PDict [("lang", PStr "en"); ("text", PStr "RP")]]);
           ("attributes", PList [])])) = PStr "saml2".
Proof.
  assert (Hrun :
    _handle_authn_request (toy_env happy_script) c1_context
      (toy_endpoint "authorization" false) c0_world =
    (Ret (PInternalData
            [("subject_type", PStr "pairwise"); ("requester", PStr "c1");
             ("requester_name",
              PList [PDict [("lang", PStr "en"); ("text", PStr "RP")]]);
             ("attributes", PList [])],
          set_target (remember_request (toy_env happy_script) c1_context)
            (PStr "saml2")
            (PInternalData
               [("subject_type", PStr "pairwise"); ("requester", PStr "c1");
                ("requester_name",
                 PList [PDict [("lang", PStr "en"); ("text", PStr "RP")]]);
                ("attributes", PList [])])),
     (_handle_authn_request (toy_env happy_script) c1_context
        (toy_endpoint "authorization" false) c0_world).2))
    by (vm_compute; reflexivity).
  destruct (handle_authn_request_context _ _ _ _ _ _ Hrun)
    as (_ & _ & _ & Hs & Ht & _).
  split; [exact Hs | exact Ht].
Defined.

Lemma authorization_error_response_witness :
  authorization_endpoint
    (toy_env (with_parse
                (Ret (PMessage AuthorizationErrorResponse
                        [("error", PStr "invalid_request")]))
                happy_script))
    c1_context c0_world =
  (Ret (PDict [("error", PStr "invalid_request")]),
   flush_world
     (with_cdb {[ "c1" := PDict [("client_name", PStr "RP")] ]} c0_world)).
Proof.
  refine (proj1 (authorization_error_response
                   (toy_env (with_parse
                               (Ret (PMessage AuthorizationErrorResponse
                                       [("error", PStr "invalid_request")]))
                               happy_script))
                   c1_context c0_world (PDict [("client_name", PStr "RP")])
                   (with_cdb {[ "c1" := PDict [("client_name", PStr "RP")] ]}
                      c0_world)
                   [("error", PStr "invalid_request")]
                   (with_cdb {[ "c1" := PDict [("client_name", PStr "RP")] ]}
                      c0_world) _ _)); reflexivity.
Defined.

(** ** The userinfo endpoint, the backend response and the discovery
    endpoint *)

Section MoreEndpointFacts.
Context {Storage : Type} (E : Env Storage).
Implicit Types w : World Storage.

Lemma triple_bind {A B} P (m : M Storage A) R (k : A → M Storage B) Q :
  triple P m R → (∀ a, triple (R a) (k a) Q) → triple P (bind m k) Q.
Proof.
  intros Hm Hk w b w' HP. rewrite bind_run.
  destruct (m w) as [[a|e] w1] eqn:Hmw; [|discriminate].
  intros Hkw. eapply Hk; [|exact Hkw]. eapply Hm; eauto.
Qed.

Lemma triple_trivial {A} P (m : M Storage A) :
  triple P m (fun _ _ => True).
Proof. done. Qed.

Lemma triple_returns {A} (m : M Storage A) Q :
  triple (fun _ => True) m Q → returns m Q.
Proof. intros H w a w' Hm. by eapply H. Qed.

(** Whatever the userinfo endpoint answers, the claims it loaded into the
    endpoint context's userinfo for the time of the processing are gone when
    it returns. *)
Theorem userinfo_endpoint_unloads_claims (context : ExtendedContext) :
  returns (userinfo_endpoint E context)
    (fun _ w => userinfo (ec w) = PDict [] ∧ flushed w).
Proof.
  apply triple_returns. unfold userinfo_endpoint.
  do 5 (eapply triple_bind; [apply triple_trivial | intros ?]).
  eapply (triple_bind _ _ (fun _ w => userinfo (ec w) = PDict [])).
  { intros w x w' _ [= _ <-]. reflexivity. }
  intros _. destruct (isinstance_JsonResponse _).
  - intros w x w' Hu. rewrite send_response_run. intros [= _ <-]. done.
  - eapply (triple_bind _ _ (fun _ w => userinfo (ec w) = PDict [])).
    { intros w x w' Hu. unfold lift. by intros [= _ <-]. }
    intros args.
    eapply (triple_bind _ _ (fun _ w => userinfo (ec w) = PDict [])).
    { intros w x w' Hu. unfold store_session_to_db.
      destruct (storage_store_session_to_db E _ _ _) as [o s].
      by intros [= _ <-]. }
    intros _ w x w' Hu. rewrite send_response_run. intros [= _ <-]. done.
Qed.

(** When [_handle_backend_response] answers with a JSON response (an error
    of the processing, of [authz_part2] or of the authorization itself), the
    session manager has been flushed by then. *)
Lemma backend_json_response_flushed (context : ExtendedContext) internal_resp :
  returns (_handle_backend_response E context internal_resp)
    (fun r w => isinstance_JsonResponse r = true → flushed w).
Proof.
  assert (Hsend : ∀ r : PyVal,
    returns (send_response (Storage := Storage) r)
      (fun r w => isinstance_JsonResponse r = true → flushed w)).
  { intros r. eapply returns_weaken; [apply returns_send_response|]. auto. }
  unfold _handle_backend_response.
  destruct (state context !! frontend_name E); [|auto with returns].
  destruct (dict_get "oidc_request" _); [|auto with returns].
  destruct (dict_get "client_id" _); [|auto with returns].
  past 4. destruct (isinstance_JsonResponse _); [apply Hsend|].
  past 4. apply returns_try_else.
  - intros e. destruct (is_Exception e); [apply Hsend | auto with returns].
  - intros _args. destruct (_ && _); [apply Hsend|].
    past 1. destruct (isinstance_AuthorizationErrorResponse _).
    + past 1. apply Hsend.
    + past 3. destruct (py_eq_str _ "body").
      * apply returns_ret. discriminate.
      * destruct (py_eq_str _ "url").
        -- past 3. apply returns_ret. discriminate.
        -- past 1. auto with returns.
Qed.

(** After an error answer of [_handle_backend_response],
    [handle_authn_response] still stores: what it hands to the storage is
    the flushed, empty session manager together with the combined claims,
    and the error response is returned as it is. *)
Theorem handle_authn_response_stores_after_error (context : ExtendedContext)
    internal_resp w _claims w0 items r w1 s2 :
  extern E (from_internal "openid"
              (default PNone (dict_get "attributes" internal_resp))) w =
    (Ret _claims, w0) →
  py_items _claims = Some items →
  _handle_backend_response E context internal_resp w0 = (Ret r, w1) →
  isinstance_JsonResponse r = true →
  storage_store_session_to_db E {| db := [] |}
    (PDict (combined_claims E items)) (storage w1) = (Ret tt, s2) →
  session_manager (ec w1) = {| db := [] |} ∧
  handle_authn_response E context internal_resp w =
    (Ret (r, forget_request E context),
     flush_world {| ec := ec w1; storage := s2 |}).
Proof.
  intros Hfrom Hitems Hback Hjson Hstore.
  assert (Hflushed : session_manager (ec w1) = {| db := [] |}).
  { pose proof (backend_json_response_flushed _ _ _ _ _ Hback Hjson) as Hf.
    unfold flushed in Hf. destruct (session_manager (ec w1)). simpl in Hf.
    by subst. }
  split; [done|].
  assert (Hstate : is_Some (state context !! frontend_name E)).
  { unfold _handle_backend_response in Hback.
    destruct (state context !! frontend_name E); [eauto|discriminate]. }
  destruct Hstate as [st Hst].
  unfold handle_authn_response. rewrite bind_run. unfold call at 1.
  rewrite Hfrom, Hitems, bind_run, Hback, Hst, bind_run.
  unfold store_session_to_db. rewrite Hflushed, Hstore. reflexivity.
Qed.

(** Without a remembered OIDC request (no entry for the frontend in the
    state, no "oidc_request" in it, or no "client_id" in the request),
    [_handle_backend_response] raises [KeyError] at once: no client is
    looked up, no session is loaded or flushed, no library call is made. *)
Theorem handle_backend_response_missing_request (context : ExtendedContext)
    internal_resp w :
  ((state context !! frontend_name E) ≫= dict_get "oidc_request")
    ≫= dict_get "client_id" = None →
  ∃ key, _handle_backend_response E context internal_resp w =
           (Raise (mkExn KeyError key), w).
Proof.
  intros H. unfold _handle_backend_response.
  destruct (state context !! frontend_name E) as [st|]; simpl in H;
    [|by eexists].
  destruct (dict_get "oidc_request" st) as [req|]; simpl in H; [|by eexists].
  destruct (dict_get "client_id" req); [discriminate | by eexists].
Qed.

(** The provider-configuration endpoint translates no error: an exception of
    [endpoint.process_request], the three client exceptions included,
    leaves the endpoint as it was raised, and nothing is flushed. *)
Theorem provider_info_endpoint_raises (C : FrontendConfig)
    (context : ExtendedContext) w parse_req w1 e w2 :
  extern E (parse_request (endpoint_provider_config C)
              (PDict (str_dict (request context)))
              (PDict (_get_http_headers context))) w = (Ret parse_req, w1) →
  extern E (process_request (endpoint_provider_config C) parse_req
              (PDict (_get_http_headers context))) w1 = (Raise e, w2) →
  provider_info_endpoint E C context w = (Raise e, w2).
Proof.
  intros Hparse Hproc. unfold provider_info_endpoint.
  rewrite bind_run. unfold call at 1. rewrite Hparse.
  rewrite bind_run. unfold call at 1. rewrite Hproc. reflexivity.
Qed.

Lemma returns_send_response_value (response : PyVal)
    (Q : PyVal → World Storage → Prop) :
  (∀ w, Q response (flush_world w)) →
  returns (send_response response) Q.
Proof.
  intros HQ w a w'. rewrite send_response_run. intros [= <- <-]. apply HQ.
Qed.

(** Whenever they return, the token endpoint, the userinfo endpoint, the
    provider-configuration endpoint and the JWKS endpoint return a
    [JsonResponse]; the last two give it no status and, unlike the first
    two, do not flush the session manager themselves. *)
Theorem endpoints_answer_json (C : FrontendConfig) (context : ExtendedContext) :
  returns (token_endpoint E context)
    (fun r w => isinstance_JsonResponse r = true ∧ flushed w) ∧
  returns (userinfo_endpoint E context)
    (fun r w => isinstance_JsonResponse r = true ∧ flushed w) ∧
  returns (provider_info_endpoint E C context)
    (fun r _ => ∃ body, r = PJsonResponse body None) ∧
  (∀ w, jwks_endpoint C context w = (Ret (PJsonResponse (jwks_public C) None), w)).
Proof.
  split; [|split; [|split]].
  - unfold token_endpoint. past 5.
    destruct (isinstance_JsonResponse _) eqn:Hj.
    + apply returns_send_response_value. done.
    + past 2. apply returns_send_response_value. done.
  - unfold userinfo_endpoint. past 6.
    destruct (isinstance_JsonResponse _) eqn:Hj.
    + apply returns_send_response_value. done.
    + past 2. apply returns_send_response_value. done.
  - unfold provider_info_endpoint. past 4.
    intros w r w' [= <- _]. eauto.
  - reflexivity.
Qed.

(** Whenever [_handle_backend_response] returns, its answer is a
    [JsonResponse] (an error; the session manager is flushed by then), a
    [Response] (placement in the body) or a [SeeOther] redirect (placement
    in the url): never a bare dict and never the internal data. *)
Theorem handle_backend_response_answers (context : ExtendedContext)
    internal_resp :
  returns (_handle_backend_response E context internal_resp)
    (fun r w =>
       isinstance_JsonResponse r = true ∧ flushed w ∨
       (∃ body, r = PResponse body) ∨
       (∃ url, r = PSeeOther url)).
Proof.
  assert (Hsend : ∀ r : PyVal, isinstance_JsonResponse r = true →
    returns (send_response (Storage := Storage) r)
      (fun r w =>
         isinstance_JsonResponse r = true ∧ flushed w ∨
         (∃ body, r = PResponse body) ∨ (∃ url, r = PSeeOther url))).
  { intros r Hr. apply returns_send_response_value. intros w. by left. }
  unfold _handle_backend_response.
  destruct (state context !! frontend_name E); [|auto with returns].
  destruct (dict_get "oidc_request" _); [|auto with returns].
  destruct (dict_get "client_id" _); [|auto with returns].
  past 4. destruct (isinstance_JsonResponse _) eqn:Hj; [by apply Hsend|].
  past 4. apply returns_try_else.
  - intros e. destruct (is_Exception e); [by apply Hsend | auto with returns].
  - intros _args. destruct (_ && _); [by apply Hsend|].
    past 1. destruct (isinstance_AuthorizationErrorResponse _).
    + past 1. by apply Hsend.
    + past 3. destruct (py_eq_str _ "body").
      * apply returns_ret. intros ?. right. left. eauto.
      * destruct (py_eq_str _ "url").
        -- past 3. apply returns_ret. intros ?. right. right. eauto.
        -- past 1. auto with returns.
Qed.
End MoreEndpointFacts.

Lemma userinfo_endpoint_unloads_claims_witness :
  userinfo (ec (userinfo_endpoint (toy_env happy_script) c1_context
                  c0_world).2) = PDict [].
Proof.
  assert (Hrun :
    userinfo_endpoint (toy_env happy_script) c1_context c0_world =
    (Ret (PJsonResponse (PDict []) None),
     (userinfo_endpoint (toy_env happy_script) c1_context c0_world).2))
    by (vm_compute; reflexivity).
  exact (proj1 (userinfo_endpoint_unloads_claims _ _ _ _ _ Hrun)).
Defined.

Lemma handle_authn_response_stores_after_error_witness :
  (handle_authn_response
     (toy_env (with_authz_part2 (Raise (mkExn ValueError "boom")) happy_script))
     c1_backend_context u1_response c0_world).1 =
    Ret (PJsonResponse (PStr "Something went wrong ... boom") (Some "403"),
         forget_request (toy_env happy_script) c1_backend_context) ∧
  storage
    (handle_authn_response
       (toy_env (with_authz_part2 (Raise (mkExn ValueError "boom"))
                   happy_script))
       c1_backend_context u1_response c0_world).2 = [].
Proof.
  assert (Hback :
    _handle_backend_response
      (toy_env (with_authz_part2 (Raise (mkExn ValueError "boom"))
                  happy_script))
      c1_backend_context u1_response c0_world =
    (Ret (PJsonResponse (PStr "Something went wrong ... boom") (Some "403")),
     (_handle_backend_response
        (toy_env (with_authz_part2 (Raise (mkExn ValueError "boom"))
                    happy_script))
        c1_backend_context u1_response c0_world).2))
    by (vm_compute; reflexivity).
  destruct (handle_authn_response_stores_after_error
              (toy_env (with_authz_part2 (Raise (mkExn ValueError "boom"))
                          happy_script))
              c1_backend_context u1_response c0_world
              (PDict [("mail", PList [PStr "u1@example.org"])]) c0_world
              [("mail", PList [PStr "u1@example.org"])] _ _ []
              eq_refl eq_refl Hback eq_refl eq_refl) as [_ H].
  rewrite H. split; reflexivity.
Defined.

Lemma handle_backend_response_missing_request_witness :
  ∃ key,
    _handle_backend_response (toy_env happy_script) c1_context u1_response
      c0_world = (Raise (mkExn KeyError key), c0_world).
Proof.
  exact (handle_backend_response_missing_request (toy_env happy_script)
           c1_context u1_response c0_world eq_refl).
Defined.

Lemma provider_info_endpoint_raises_witness :
  provider_info_endpoint
    (toy_env (with_process (Raise (mkExn UnknownClient "unknown client c9"))
                happy_script))
    toy_config c1_context c0_world =
  (Raise (mkExn UnknownClient "unknown client c9"), toy_add_grant c0_world).
Proof.
  exact (provider_info_endpoint_raises
           (toy_env (with_process
                       (Raise (mkExn UnknownClient "unknown client c9"))
                       happy_script))
           toy_config c1_context c0_world
           (PMessage AuthorizationRequest [("client_id", PStr "c1")])
           c0_world (mkExn UnknownClient "unknown client c9")
           (toy_add_grant c0_world) eq_refl eq_refl).
Defined.

(** ** Registering the endpoints *)

Lemma string_length_app (s t : string) :
  String.length (s ++ t) = String.length s + String.length t.
Proof. induction s as [|c s IH]; simpl; [done | by rewrite IH]. Qed.

Lemma string_app_inv_tail (s1 s2 t : string) : s1 ++ t = s2 ++ t → s1 = s2.
Proof.
  revert s2. induction s1 as [|c s1 IH]; intros [|c2 s2] H; simpl in H.
  - reflexivity.
  - apply (f_equal String.length) in H.
    rewrite !string_length_app in H. simpl in H.
    rewrite ?string_length_app in H. lia.
  - apply (f_equal String.length) in H.
    rewrite !string_length_app in H. simpl in H.
    rewrite ?string_length_app in H. lia.
  - injection H as -> H. f_equal. by apply IH.
Qed.

Lemma getattr_endpoint_known (k : string) :
  (∃ method, getattr_endpoint k = Ret method) ↔
  k ∈ ["jwks"; "provider_info"; "authorization"; "token"; "userinfo";
       "client_registration"; "introspection"].
Proof.
  unfold getattr_endpoint. split.
  - intros [method H]. revert H.
    repeat lazymatch goal with
    | |- (if String.eqb ?a ?b then _ else _) = _ → _ =>
        destruct (String.eqb_spec a b) as [Heq|_];
        [ intros _;
          first
            [ apply (string_app_inv_tail k "jwks" "_endpoint") in Heq
            | apply (string_app_inv_tail k "provider_info" "_endpoint") in Heq
            | apply (string_app_inv_tail k "authorization" "_endpoint") in Heq
            | apply (string_app_inv_tail k "token" "_endpoint") in Heq
            | apply (string_app_inv_tail k "userinfo" "_endpoint") in Heq
            | apply (string_app_inv_tail k "client_registration" "_endpoint")
                in Heq
            | apply (string_app_inv_tail k "introspection" "_endpoint") in Heq ];
          subst k; set_solver
        | ]
    end.
    discriminate.
  - intros H. repeat (apply elem_of_cons in H as [->|H]; [by eexists|]).
    inversion H.
Qed.

Lemma getattr_endpoint_raises (k : string) e :
  getattr_endpoint k = Raise e → exn_class e = AttributeError.
Proof.
  unfold getattr_endpoint.
  repeat lazymatch goal with
  | |- (if ?b then _ else _) = _ → _ => destruct b; [discriminate|]
  end.
  by intros [= <-].
Qed.

Lemma url_map_of_routes items url_map :
  url_map_of items = Ret url_map →
  length url_map = length items ∧
  ∀ i k v, items !! i = Some (k, v) →
    ∃ path method, url_map !! i = Some (path, method) ∧
                   dict_get "path" v = Some path ∧
                   getattr_endpoint k = Ret method.
Proof.
  revert url_map. induction items as [|[k0 v0] items IH]; simpl; intros url_map.
  - intros [= <-]. split; [done|]. intros i k v H. by rewrite lookup_nil in H.
  - destruct (dict_get "path" v0) as [path|] eqn:Hp; [|discriminate].
    destruct (getattr_endpoint k0) as [method|] eqn:Hm; [|discriminate].
    destruct (url_map_of items) as [r|]; [|discriminate].
    intros [= <-]. destruct (IH r eq_refl) as [Hlen Hr]. split.
    + simpl. by rewrite Hlen.
    + intros [|i] k v; simpl.
      * intros [= -> ->]. eauto.
      * apply Hr.
Qed.

Lemma url_map_of_raises items k v :
  (k, v) ∈ items →
  (∀ method, getattr_endpoint k ≠ Ret method) →
  ∃ e, url_map_of items = Raise e ∧
       (exn_class e = AttributeError ∨ exn_class e = KeyError).
Proof.
  intros Hin Hk. induction items as [|[k0 v0] items IH]; [inversion Hin|].
  simpl. destruct (dict_get "path" v0); [|eexists; split; [done|by right]].
  destruct (getattr_endpoint k0) as [method|e] eqn:Hm.
  - apply elem_of_cons in Hin as [[= <- <-]|Hin]; [by destruct (Hk method)|].
    destruct (IH Hin) as (e & -> & He). eauto.
  - exists e. split; [done|]. left. by eapply getattr_endpoint_raises.
Qed.

(** When [register_endpoints] returns, the url map is also what
    [self.endpoints] holds; it has one route per configured endpoint, in the
    order of the configuration, each made of the endpoint's path and the
    method named after it, followed by the JWKS route as its last entry.
    The backend names play no part. *)
Theorem register_endpoints_routes (C : FrontendConfig)
    (backend_names : list string) endpoints url_map endpoints' :
  register_endpoints C backend_names endpoints = (Ret url_map, endpoints') →
  endpoints' = Some url_map ∧
  length url_map = S (length (config_endpoint C)) ∧
  (∃ uri_path, dict_get "uri_path" (config_keys C) = Some uri_path ∧
               last url_map = Some (uri_path, jwks_method)) ∧
  (∀ i k v, config_endpoint C !! i = Some (k, v) →
     ∃ path method, url_map !! i = Some (path, method) ∧
                    dict_get "path" v = Some path ∧
                    getattr_endpoint k = Ret method) ∧
  (∀ names, register_endpoints C names endpoints = (Ret url_map, endpoints')).
Proof.
  unfold register_endpoints.
  destruct (url_map_of (config_endpoint C)) as [r|] eqn:Hr; [|discriminate].
  destruct (dict_get "uri_path" (config_keys C)) as [uri_path|];
    [|discriminate].
  intros [= <- <-]. destruct (url_map_of_routes _ _ Hr) as [Hlen Hroutes].
  split; [done|]. split; [rewrite length_app; simpl; lia|].
  split; [exists uri_path; split; [done | apply last_snoc]|].
  split; [|done].
  intros i k v Hi. destruct (Hroutes i k v Hi) as (path & method & H1 & H2 & H3).
  exists path, method. split; [|done].
  rewrite lookup_app_l; [done|]. by apply lookup_lt_Some in H1.
Qed.

Lemma register_endpoints_routes_witness :
  length
    [(PStr ".well-known/openid-configuration", provider_info_method);
     (PStr "authorization", authorization_method);
     (PStr "token", token_method); (PStr "userinfo", userinfo_method);
     (PStr "static/jwks.json", jwks_method)] =
  S (length (config_endpoint toy_config)).
Proof.
  exact (proj1 (proj2 (register_endpoints_routes toy_config ["saml2"] None
                         _ _ eq_refl))).
Defined.

(** An endpoint of the configuration for which the frontend has no method
    of that name (anything but jwks, provider_info, authorization, token,
    userinfo, client_registration, introspection) makes
    [register_endpoints] raise [AttributeError] (or [KeyError], if an entry
    without a path comes first), and [self.endpoints] stays as it was. *)
Theorem register_endpoints_unknown (C : FrontendConfig)
    (backend_names : list string) endpoints k v :
  (k, v) ∈ config_endpoint C →
  k ∉ ["jwks"; "provider_info"; "authorization"; "token"; "userinfo";
       "client_registration"; "introspection"] →
  ∃ e, register_endpoints C backend_names endpoints = (Raise e, endpoints) ∧
       (exn_class e = AttributeError ∨ exn_class e = KeyError).
Proof.
  intros Hin Hk. unfold register_endpoints.
  destruct (url_map_of_raises _ _ _ Hin) as (e & -> & He); [|eauto].
  intros method Hm. apply Hk, getattr_endpoint_known. eauto.
Qed.

Lemma register_endpoints_unknown_witness :
  ∃ e,
    register_endpoints
      {| config_endpoint := [("token", [("path", PStr "token")]);
                             ("registration", [("path", PStr "registration")])];
         config_keys := [("uri_path", PStr "static/jwks.json")];
         jwks_public := PStr "{}";
         endpoint_provider_config := toy_endpoint "provider_config" false |}
      [] None = (Raise e, None) ∧
    (exn_class e = AttributeError ∨ exn_class e = KeyError).
Proof.
  apply (register_endpoints_unknown _ _ _ "registration"
           [("path", PStr "registration")]).
  - simpl. set_solver.
  - intros H. repeat (apply elem_of_cons in H as [H|H]; [discriminate|]).
    inversion H.
Defined.

(** ** FileGenerator: certificates and metadata files *)

Module FileGeneratorMethodsFacts.
Import FileGeneratorMethods.

Lemma generate_cert_run (code : option string) s :
  generate_cert code s =
  match code ≫= (fun c => generate_certs s !! c) with
  | Some cached => (Ret cached, s)
  | None => (Raise (unbound "OpenSSLWrapper"), s)
  end.
Proof.
  unfold generate_cert.
  by destruct (code ≫= (fun c => generate_certs s !! c)).
Qed.

Lemma create_metadata_run (config : PyVal) (code : option string) s :
  create_metadata config code s =
  match code ≫= (fun c => metadata s !! c) with
  | Some cached => (Ret cached, s)
  | None => (Raise (unbound "create_metadata_from_config_dict"), s)
  end.
Proof.
  unfold create_metadata.
  by destruct (code ≫= (fun c => metadata s !! c)).
Qed.

Lemma call_method_state (c : MethodCall) s : (call_method c s).2 = s.
Proof.
  destruct c as [code|config code]; simpl.
  - rewrite generate_cert_run.
    by destruct (code ≫= (fun c => generate_certs s !! c)) as [[??]|].
  - rewrite create_metadata_run.
    by destruct (code ≫= (fun c => metadata s !! c)).
Qed.

Lemma call_method_uncached (c : MethodCall) s :
  generate_certs s = ∅ → metadata s = ∅ →
  (call_method c s).1 = Raise (raised_by c).
Proof.
  intros Hc Hm. destruct c as [code|config code]; simpl.
  - rewrite generate_cert_run, Hc. by destruct code.
  - rewrite create_metadata_run, Hm. by destruct code.
Qed.

(** As the module stands, [FileGenerator] generates nothing: no call of
    [generate_cert] or [create_metadata] changes the instance or creates a
    file, in any state; and on an instance with empty caches, as [__init__]
    leaves them, every call of any sequence ends with the [NameError] of the
    name the module does not bind ([OpenSSLWrapper] for a certificate,
    [create_metadata_from_config_dict] for a metadata file), with or without
    a code, so that the caches stay empty for good. *)
Theorem file_generator_generates_nothing (calls : list MethodCall)
    (s : GenState) :
  (run_methods calls s).2 = s ∧
  (generate_certs s = ∅ → metadata s = ∅ →
   (run_methods calls s).1 = (fun c => Raise (raised_by c)) <$> calls).
Proof.
  induction calls as [|c calls [IHs IHo]]; [done|]. simpl.
  pose proof (call_method_state c s) as Hs.
  pose proof (call_method_uncached c s) as Ho.
  destruct (call_method c s) as [o s1]. simpl in Hs, Ho. subst s1.
  destruct (run_methods calls s) as [os s2]. simpl in *. subst s2.
  split; [done|]. intros Hc Hm. by rewrite Ho, IHo.
Qed.

(** Two calls with the same code on a fresh instance: both raise, nothing
    is cached in between. *)
Example file_generator_run :
  run_methods [GenerateCert (Some "idp"); GenerateCert (Some "idp");
               CreateMetadata PNone (Some "idp"); GenerateCert None]
    empty_state =
  ([Raise (mkExn NameError "name 'OpenSSLWrapper' is not defined");
    Raise (mkExn NameError "name 'OpenSSLWrapper' is not defined");
    Raise (mkExn NameError
             "name 'create_metadata_from_config_dict' is not defined");
    Raise (mkExn NameError "name 'OpenSSLWrapper' is not defined")],
   empty_state).
Proof. reflexivity. Qed.

End FileGeneratorMethodsFacts.

(** ** The fake and test plugins *)

Module TestPluginsFacts.
Import TestPlugins.

(** [FakeBackend.start_auth] never returns and never calls the function the
    backend was constructed with: whatever the recursion limit, the call
    ends with [RecursionError]. *)
Theorem start_auth_recursion (depth : nat) (self : FakeBackend)
    (context request_info state : PyVal) :
  start_auth depth self context request_info state = Raise RecursionError ∧
  start_auth depth self context request_info state =
    start_auth depth
      {| start_auth_func := None;
         register_endpoints_func := register_endpoints_func self |}
      context request_info state.
Proof.
  assert (H : ∀ b, start_auth depth b context request_info state =
                   Raise RecursionError).
  { intros b. induction depth as [|depth IH]; [reflexivity | exact IH]. }
  by rewrite !H.
Qed.

(** [TestFrontend.register_endpoints] gives one route per backend name, in
    the order of the names, and distinct backend names get distinct
    routes. *)
Theorem frontend_routes_distinct (name : string) (backend_names : list string) :
  NoDup backend_names →
  NoDup (frontend_register_endpoints name backend_names).*1 ∧
  length (frontend_register_endpoints name backend_names) =
    length backend_names ∧
  ∀ i p, backend_names !! i = Some p →
         frontend_register_endpoints name backend_names !! i =
           Some ("^" ++ p ++ "/" ++ name ++ "/request$", handle_request).
Proof.
  intros Hnd. unfold frontend_register_endpoints. split; [|split].
  - change (map ?f ?l) with (f <$> l). rewrite <- list_fmap_compose.
    apply NoDup_fmap_2_strong; [|done].
    intros p p' _ _ Heq. simpl in Heq. injection Heq as Heq.
    by apply (string_app_inv_tail p p' ("/" ++ name ++ "/request$")).
  - apply length_map.
  - intros i p Hi. change (map ?f ?l) with (f <$> l).
    by rewrite list_lookup_fmap, Hi.
Qed.

Lemma frontend_routes_distinct_witness :
  NoDup (frontend_register_endpoints "OIDC" ["saml2"; "social"]).*1.
Proof.
  refine (proj1 (frontend_routes_distinct "OIDC" ["saml2"; "social"] _)).
  apply (bool_decide_unpack (NoDup _)). vm_compute. exact I.
Defined.

End TestPluginsFacts.

(** ** Further runs against the scripted environment *)

Lemma endpoints_answer_json_witness :
  isinstance_JsonResponse (PJsonResponse (PDict []) None) = true ∧
  flushed (token_endpoint (toy_env happy_script) c1_context c0_world).2.
Proof.
  assert (Hrun :
    token_endpoint (toy_env happy_script) c1_context c0_world =
    (Ret (PJsonResponse (PDict []) None),
     (token_endpoint (toy_env happy_script) c1_context c0_world).2))
    by (vm_compute; reflexivity).
  exact (proj1 (endpoints_answer_json (toy_env happy_script) toy_config
                  c1_context) _ _ _ Hrun).
Defined.

Lemma handle_backend_response_answers_witness :
  isinstance_JsonResponse (PSeeOther (PStr "https://rp/cb?code=abc")) = true ∧
  flushed (_handle_backend_response (toy_env happy_script) c1_backend_context
             u1_response c0_world).2 ∨
  (∃ body, PSeeOther (PStr "https://rp/cb?code=abc") = PResponse body) ∨
  (∃ url, PSeeOther (PStr "https://rp/cb?code=abc") = PSeeOther url).
Proof.
  assert (Hrun :
    _handle_backend_response (toy_env happy_script) c1_backend_context
      u1_response c0_world =
    (Ret (PSeeOther (PStr "https://rp/cb?code=abc")),
     (_handle_backend_response (toy_env happy_script) c1_backend_context
        u1_response c0_world).2))
    by (vm_compute; reflexivity).
  exact (handle_backend_response_answers (toy_env happy_script)
           c1_backend_context u1_response _ _ _ Hrun).
Defined.

(** The provider-configuration and JWKS endpoints, and the url map of the
    example configuration. *)
Example discovery_run :
  (provider_info_endpoint (toy_env happy_script) toy_config c1_context
     c0_world).1 = Ret (PJsonResponse (PStr "https://rp/cb?") None) ∧
  (register_endpoints toy_config ["saml2"] None).1 =
    Ret [(PStr ".well-known/openid-configuration", provider_info_method);
         (PStr "authorization", authorization_method);
         (PStr "token", token_method); (PStr "userinfo", userinfo_method);
         (PStr "static/jwks.json", jwks_method)].
Proof. split; vm_compute; reflexivity. Qed.

(** ** What the endpoints answer to an error of the processing *)

Section EndpointErrors.
Context {Storage : Type} (E : Env Storage).
Implicit Types w : World Storage.

(** An error response of [_process_request] is what the userinfo endpoint
    returns, once the claims loaded for the processing are unloaded. *)
Lemma userinfo_endpoint_relays context w w1 parse_req w2 claims w3 r w4 :
  _load_session E (PDict []) (endpoint_userinfo E)
    (PDict (_get_http_headers context)) w = (Ret tt, w1) →
  _parse_request E (endpoint_userinfo E) context (_get_http_headers context) w1
    = (Ret parse_req, w2) →
  load_claims E w2 = (Ret claims, w3) →
  _process_request E (endpoint_userinfo E) context parse_req
    (PDict (_get_http_headers context)) (with_userinfo claims w3)
    = (Ret r, w4) →
  isinstance_JsonResponse r = true →
  userinfo_endpoint E context w =
    (Ret r, flush_world (with_userinfo (PDict []) w4)).
Proof.
  intros Hload Hparse Hclaims Hproc Hjson. unfold userinfo_endpoint.
  rewrite bind_run, Hload, bind_run, Hparse, bind_run, Hclaims, bind_run.
  change (set_userinfo claims w3) with (Ret tt, with_userinfo claims w3).
  cbv beta iota. rewrite bind_run, Hproc, bind_run.
  change (set_userinfo (PDict []) w4)
    with (Ret tt, with_userinfo (PDict []) w4).
  cbv beta iota. rewrite Hjson. apply send_response_run.
Qed.

(** And what the authorization endpoint and [handle_authn_request]
    return. *)
Lemma authorization_endpoint_relays context w c w1 parse_req w2 w3 r w4 :
  _load_cdb E context None w = (Ret c, w1) →
  _parse_request E (endpoint_authorization E) context
    (_get_http_headers context) w1 = (Ret parse_req, w2) →
  isinstance_AuthorizationErrorResponse parse_req = false →
  _load_session E parse_req (endpoint_authorization E)
    (PDict (_get_http_headers context)) w2 = (Ret tt, w3) →
  _process_request E (endpoint_authorization E) context parse_req
    (PDict (_get_http_headers context)) w3 = (Ret r, w4) →
  isinstance_JsonResponse r = true →
  authorization_endpoint E context w = (Ret r, flush_world w4) ∧
  handle_authn_request E context w = (Ret r, flush_world w4).
Proof.
  intros Hcdb Hparse Herr Hload Hproc Hjson.
  assert (Hint : isinstance_InternalData r = false)
    by (destruct r; done).
  assert (H : ∀ w0, _load_cdb E context None w0 = (Ret c, w1) →
              _handle_authn_request E context (endpoint_authorization E) w0 =
              (Ret (r, context), w4)).
  { intros w0 Hl0. unfold _handle_authn_request.
    rewrite bind_run, Hl0, bind_run, Hparse, Herr, bind_run, Hload, bind_run,
      Hproc, Hjson. reflexivity. }
  split.
  - unfold authorization_endpoint.
    rewrite bind_run, Hcdb, bind_run, (H w1 (load_cdb_again _ _ _ _ _ _ Hcdb)).
    simpl. rewrite Hint. apply send_response_run.
  - unfold handle_authn_request. rewrite bind_run, (H w Hcdb).
    simpl. rewrite Hint. apply send_response_run.
Qed.

(** C4 (as amended): when the request of a token, userinfo or authorization
    endpoint reaches [endpoint.process_request] and the processing fails
    there with [InvalidClient], [UnknownClient] or [UnAuthorizedClient], the
    endpoint returns a JSON response with status 400 whose body has [error]
    equal to "unauthorized_client" and the exception text as
    [error_description], and the session manager is flushed. A client
    exception raised before that step is not translated: raised by
    [_load_cdb] it leaves the authorization and the token endpoint, raised
    by [endpoint.parse_request] it leaves the token, the userinfo and the
    authorization endpoint, as the exception it is. *)
Theorem endpoints_unauthorized_client (context : ExtendedContext) (e : Exn) :
  is_client_error e = true →
  let http_headers := PDict (_get_http_headers context) in
  let answer :=
    PJsonResponse
      (PDict [("error", PStr "unauthorized_client");
              ("error_description", PStr (exn_str e))]) (Some "400") in
  (∀ w raw c w1 w2 parse_req w3 _req w4,
     pure E (from_urlencoded AccessTokenRequest (request context)) = Ret raw →
     _load_cdb E context None w = (Ret c, w1) →
     _load_session E raw (endpoint_token E) http_headers w1 = (Ret tt, w2) →
     _parse_request E (endpoint_token E) context (_get_http_headers context) w2
       = (Ret parse_req, w3) →
     request_for E (endpoint_token E) parse_req = Ret _req →
     extern E (process_request (endpoint_token E) _req http_headers) w3
       = (Raise e, w4) →
     token_endpoint E context w = (Ret answer, flush_world w4)) ∧
  (∀ w w1 parse_req w2 claims w3 _req w4,
     _load_session E (PDict []) (endpoint_userinfo E) http_headers w
       = (Ret tt, w1) →
     _parse_request E (endpoint_userinfo E) context
       (_get_http_headers context) w1 = (Ret parse_req, w2) →
     load_claims E w2 = (Ret claims, w3) →
     request_for E (endpoint_userinfo E) parse_req = Ret _req →
     extern E (process_request (endpoint_userinfo E) _req http_headers)
       (with_userinfo claims w3) = (Raise e, w4) →
     userinfo_endpoint E context w =
       (Ret answer, flush_world (with_userinfo (PDict []) w4))) ∧
  (∀ w c w1 parse_req w2 w3 _req w4,
     _load_cdb E context None w = (Ret c, w1) →
     _parse_request E (endpoint_authorization E) context
       (_get_http_headers context) w1 = (Ret parse_req, w2) →
     isinstance_AuthorizationErrorResponse parse_req = false →
     _load_session E parse_req (endpoint_authorization E) http_headers w2
       = (Ret tt, w3) →
     request_for E (endpoint_authorization E) parse_req = Ret _req →
     extern E (process_request (endpoint_authorization E) _req http_headers) w3
       = (Raise e, w4) →
     authorization_endpoint E context w = (Ret answer, flush_world w4) ∧
     handle_authn_request E context w = (Ret answer, flush_world w4)) ∧
  (∀ w w1,
     _load_cdb E context None w = (Raise e, w1) →
     authorization_endpoint E context w = (Raise e, w1) ∧
     ∀ raw,
       pure E (from_urlencoded AccessTokenRequest (request context)) = Ret raw →
       token_endpoint E context w = (Raise e, w1)) ∧
  (∀ w raw c w1 w2 w3,
     pure E (from_urlencoded AccessTokenRequest (request context)) = Ret raw →
     _load_cdb E context None w = (Ret c, w1) →
     _load_session E raw (endpoint_token E) http_headers w1 = (Ret tt, w2) →
     _parse_request E (endpoint_token E) context (_get_http_headers context) w2
       = (Raise e, w3) →
     token_endpoint E context w = (Raise e, w3)) ∧
  (∀ w w1 w2,
     _load_session E (PDict []) (endpoint_userinfo E) http_headers w
       = (Ret tt, w1) →
     _parse_request E (endpoint_userinfo E) context
       (_get_http_headers context) w1 = (Raise e, w2) →
     userinfo_endpoint E context w = (Raise e, w2)) ∧
  (∀ w c w1 w2,
     _load_cdb E context None w = (Ret c, w1) →
     _parse_request E (endpoint_authorization E) context
       (_get_http_headers context) w1 = (Raise e, w2) →
     authorization_endpoint E context w = (Raise e, w2) ∧
     handle_authn_request E context w = (Raise e, w2)).
Proof.
  intros He http_headers answer. subst http_headers.
  split; [|split; [|split; [|split; [|split; [|split]]]]].
  - intros w raw c w1 w2 parse_req w3 _req w4 Hraw Hcdb Hload Hparse Hreq Hp.
    by eapply token_endpoint_client_error.
  - intros w w1 parse_req w2 claims w3 _req w4 Hload Hparse Hclaims Hreq Hp.
    assert (Hproc :
      _process_request E (endpoint_userinfo E) context parse_req
        (PDict (_get_http_headers context)) (with_userinfo claims w3) =
        (Ret answer, flush_world w4))
      by (by rewrite (process_request_raised _ _ _ _ _ _ _ _ _ Hreq Hp), He).
    exact (userinfo_endpoint_relays _ _ _ _ _ _ _ _ _
             Hload Hparse Hclaims Hproc eq_refl).
  - intros w c w1 parse_req w2 w3 _req w4 Hcdb Hparse Herr Hload Hreq Hp.
    rewrite <- (flush_world_idem w4).
    eapply authorization_endpoint_relays; eauto.
    rewrite (process_request_raised _ _ _ _ _ _ _ _ _ Hreq Hp), He.
    reflexivity.
  - intros w w1 Hcdb. split.
    + unfold authorization_endpoint. by rewrite bind_run, Hcdb.
    + intros raw Hraw. unfold token_endpoint. rewrite bind_run.
      unfold call_pure, lift. by rewrite Hraw, bind_run, Hcdb.
  - intros w raw c w1 w2 w3 Hraw Hcdb Hload Hparse.
    unfold token_endpoint. rewrite bind_run. unfold call_pure, lift.
    by rewrite Hraw, bind_run, Hcdb, bind_run, Hload, bind_run, Hparse.
  - intros w w1 w2 Hload Hparse. unfold userinfo_endpoint.
    by rewrite bind_run, Hload, bind_run, Hparse.
  - intros w c w1 w2 Hcdb Hparse.
    assert (H : ∀ w0, _load_cdb E context None w0 = (Ret c, w1) →
                _handle_authn_request E context (endpoint_authorization E) w0 =
                (Raise e, w2)).
    { intros w0 Hl0. unfold _handle_authn_request.
      by rewrite bind_run, Hl0, bind_run, Hparse. }
    split.
    + unfold authorization_endpoint.
      by rewrite bind_run, Hcdb, bind_run,
        (H w1 (load_cdb_again _ _ _ _ _ _ Hcdb)).
    + unfold handle_authn_request. by rewrite bind_run, (H w Hcdb).
Qed.

(** C5 (as amended): for a request that reaches the processing step (the
    client was looked up, the session loaded and the request parsed into a
    request message), when no [AccessTokenRequest] can be built from the
    parsed request at the token endpoint, or when [endpoint.process_request]
    fails at the token, userinfo or authorization endpoint with an exception
    of class [Exception] other than the three client exceptions, the
    endpoint returns a JSON response with status 400 whose body has [error]
    equal to "invalid_request" and the exception text as
    [error_description]; the session manager is flushed. *)
Theorem endpoints_invalid_request (context : ExtendedContext) (e : Exn) :
  is_Exception e = true →
  let http_headers := PDict (_get_http_headers context) in
  let answer :=
    PJsonResponse
      (PDict [("error", PStr "invalid_request");
              ("error_description", PStr (exn_str e))]) (Some "400") in
  (∀ w raw c w1 w2 parse_req w3 w4,
     pure E (from_urlencoded AccessTokenRequest (request context)) = Ret raw →
     _load_cdb E context None w = (Ret c, w1) →
     _load_session E raw (endpoint_token E) http_headers w1 = (Ret tt, w2) →
     _parse_request E (endpoint_token E) context (_get_http_headers context) w2
       = (Ret parse_req, w3) →
     request_for E (endpoint_token E) parse_req = Raise e ∧ w4 = w3 ∨
     (∃ _req,
        request_for E (endpoint_token E) parse_req = Ret _req ∧
        extern E (process_request (endpoint_token E) _req http_headers) w3
          = (Raise e, w4) ∧
        is_client_error e = false) →
     token_endpoint E context w = (Ret answer, flush_world w4)) ∧
  (∀ w w1 parse_req w2 claims w3 _req w4,
     _load_session E (PDict []) (endpoint_userinfo E) http_headers w
       = (Ret tt, w1) →
     _parse_request E (endpoint_userinfo E) context
       (_get_http_headers context) w1 = (Ret parse_req, w2) →
     load_claims E w2 = (Ret claims, w3) →
     request_for E (endpoint_userinfo E) parse_req = Ret _req →
     extern E (process_request (endpoint_userinfo E) _req http_headers)
       (with_userinfo claims w3) = (Raise e, w4) →
     is_client_error e = false →
     userinfo_endpoint E context w =
       (Ret answer, flush_world (with_userinfo (PDict []) w4))) ∧
  (∀ w c w1 parse_req w2 w3 _req w4,
     _load_cdb E context None w = (Ret c, w1) →
     _parse_request E (endpoint_authorization E) context
       (_get_http_headers context) w1 = (Ret parse_req, w2) →
     isinstance_AuthorizationErrorResponse parse_req = false →
     _load_session E parse_req (endpoint_authorization E) http_headers w2
       = (Ret tt, w3) →
     request_for E (endpoint_authorization E) parse_req = Ret _req →
     extern E (process_request (endpoint_authorization E) _req http_headers) w3
       = (Raise e, w4) →
     is_client_error e = false →
     authorization_endpoint E context w = (Ret answer, flush_world w4) ∧
     handle_authn_request E context w = (Ret answer, flush_world w4)).
Proof.
  intros He http_headers answer. subst http_headers.
  split; [|split].
  - intros w raw c w1 w2 parse_req w3 w4 Hraw Hcdb Hload Hparse
      [[Hreq ->]|(_req & Hreq & Hp & Hc)].
    + by eapply token_endpoint_build_error.
    + rewrite <- (flush_world_idem w4).
      eapply token_endpoint_relays; eauto.
      rewrite (process_request_raised _ _ _ _ _ _ _ _ _ Hreq Hp), Hc, He.
      reflexivity.
  - intros w w1 parse_req w2 claims w3 _req w4 Hload Hparse Hclaims Hreq Hp Hc.
    assert (Hproc :
      _process_request E (endpoint_userinfo E) context parse_req
        (PDict (_get_http_headers context)) (with_userinfo claims w3) =
        (Ret answer, flush_world w4))
      by (by rewrite (process_request_raised _ _ _ _ _ _ _ _ _ Hreq Hp), Hc, He).
    exact (userinfo_endpoint_relays _ _ _ _ _ _ _ _ _
             Hload Hparse Hclaims Hproc eq_refl).
  - intros w c w1 parse_req w2 w3 _req w4 Hcdb Hparse Herr Hload Hreq Hp Hc.
    rewrite <- (flush_world_idem w4).
    eapply authorization_endpoint_relays; eauto.
    rewrite (process_request_raised _ _ _ _ _ _ _ _ _ Hreq Hp), Hc, He.
    reflexivity.
Qed.
End EndpointErrors.

Lemma endpoints_unauthorized_client_witness :
  (token_endpoint
     (toy_env (with_process (Raise (mkExn UnknownClient "unknown client c1"))
                 happy_script))
     c1_context c0_world).1 =
  Ret (PJsonResponse
         (PDict [("error", PStr "unauthorized_client");
                 ("error_description", PStr "unknown client c1")])
         (Some "400")).
Proof.
  pose proof (proj1 (endpoints_unauthorized_client
                       (toy_env (with_process
                                   (Raise (mkExn UnknownClient
                                             "unknown client c1"))
                                   happy_script))
                       c1_context (mkExn UnknownClient "unknown client c1")
                       eq_refl)) as H.
  erewrite H; [reflexivity | reflexivity ..].
Defined.

(** The claim as stated fails (C4): a client exception raised outside
    [endpoint.process_request] is answered with no response at all. A token
    request without a client id ends with the [InvalidClient] of
    [_load_cdb], and a token or userinfo request whose client the library
    rejects while parsing (an unknown client id) ends with that
    [UnknownClient]. *)
Lemma client_error_before_processing_escapes :
  token_endpoint (toy_env happy_script) (toy_context []) c0_world =
    (Raise (mkExn InvalidClient "Client None not found!"),
     with_cdb ∅ c0_world) ∧
  (token_endpoint
     (toy_env (with_parse (Raise (mkExn UnknownClient "unknown client c1"))
                 happy_script))
     c1_context c0_world).1 =
    Raise (mkExn UnknownClient "unknown client c1") ∧
  (userinfo_endpoint
     (toy_env (with_parse (Raise (mkExn UnknownClient "unknown client c1"))
                 happy_script))
     c1_context c0_world).1 =
    Raise (mkExn UnknownClient "unknown client c1") ∧
  is_client_error (mkExn InvalidClient "Client None not found!") = true ∧
  is_client_error (mkExn UnknownClient "unknown client c1") = true.
Proof. repeat split; vm_compute; reflexivity. Qed.

(** The same processing error at the userinfo and the authorization
    endpoint. *)
Example userinfo_endpoint_unknown_client :
  (userinfo_endpoint
     (toy_env (with_process (Raise (mkExn UnknownClient "unknown client c1"))
                 happy_script))
     c1_context c0_world).1 =
    Ret (PJsonResponse
           (PDict [("error", PStr "unauthorized_client");
                   ("error_description", PStr "unknown client c1")])
           (Some "400")) ∧
  (authorization_endpoint
     (toy_env (with_process (Raise (mkExn UnAuthorizedClient "not allowed"))
                 happy_script))
     c1_context c0_world).1 =
    Ret (PJsonResponse
           (PDict [("error", PStr "unauthorized_client");
                   ("error_description", PStr "not allowed")])
           (Some "400")).
Proof. split; vm_compute; reflexivity. Qed.

Lemma endpoints_invalid_request_witness :
  (token_endpoint
     (toy_env (with_process
                 (Raise (mkExn ValueError "unsupported grant_type"))
                 happy_script))
     c1_context c0_world).1 =
  Ret (PJsonResponse
         (PDict [("error", PStr "invalid_request");
                 ("error_description",
                  PStr "unsupported grant_type")])
         (Some "400")).
Proof.
  pose proof (proj1 (endpoints_invalid_request
                       (toy_env (with_process
                                   (Raise (mkExn ValueError
                                             "unsupported grant_type"))
                                   happy_script))
                       c1_context
                       (mkExn ValueError "unsupported grant_type")
                       eq_refl)) as H.
  erewrite H; [reflexivity | reflexivity .. |].
  right. eexists. split; [reflexivity|]. split; reflexivity.
Defined.

(** The claim as stated fails (C5): a request without the required
    [client_id] gets no response from the authorization endpoint, which ends
    with the [InvalidClient] of [_load_cdb]; and an authorization request
    without its required [response_type], which the library answers on
    parsing with an [AuthorizationErrorResponse], is answered by the
    endpoint with the dict of that message: no JSON response and no status
    400. *)
Lemma missing_parameter_without_invalid_request :
  authorization_endpoint (toy_env happy_script)
    (toy_context [("response_type", "code")]) c0_world =
    (Raise (mkExn InvalidClient "Client None not found!"),
     with_cdb ∅ c0_world) ∧
  (authorization_endpoint
     (toy_env (with_parse
                 (Ret (PMessage AuthorizationErrorResponse
                         [("error", PStr "invalid_request");
                          ("error_description",
                           PStr "Missing required attribute 'response_type'")]))
                 happy_script))
     c1_context c0_world).1 =
    Ret (PDict [("error", PStr "invalid_request");
                ("error_description",
                 PStr "Missing required attribute 'response_type'")]) ∧
  isinstance_JsonResponse
    (PDict [("error", PStr "invalid_request");
            ("error_description",
             PStr "Missing required attribute 'response_type'")]) = false ∧
  response_status
    (PDict [("error", PStr "invalid_request");
            ("error_description",
             PStr "Missing required attribute 'response_type'")]) = None.
Proof. repeat split; vm_compute; reflexivity. Qed.

(** An error that [endpoint.process_request] returns instead of raising is
    not looked at: the token endpoint goes on to read "response_args" from
    it and ends with [KeyError]. *)
Example token_endpoint_returned_error :
  (token_endpoint
     (toy_env (with_process
                 (Ret (PMessage ResponseMessage
                         [("error", PStr "invalid_request")]))
                 happy_script))
     c1_context c0_world).1 =
  Raise (mkExn KeyError "'response_args'").
Proof. vm_compute. reflexivity. Qed.
